(** * generate_cc_arrays: converting .tflite, .bmp and .wav files to cc arrays

    A shallow embedding of [tensorflow/lite/micro/tools/generate_cc_arrays.py]
    and the properties of its three steps: the format reader
    ([generate_array]), the name/type deriver ([get_array_name]) and the
    artifact writer ([generate_file]), together with the two modes of [main].

    Layout: Part I holds the definitions (the Python built-ins the script
    uses, the file system and standard output it acts on, the two decoding
    collaborators, and the script itself); Part II holds the lemmas. *)

From Stdlib Require Import ZArith Ascii Strings.Byte DecimalString Lia.
From Stdlib Require Import DecimalPos DecimalFacts.
From Stdlib Require String.
From stdpp Require Import base option list gmap strings.

(* ===================================================================== *)
(** * Part I: definitions *)
(* ===================================================================== *)

(** ** Python built-ins on [str], [bytes] and [int] *)

Module Py.

(** Characters that cannot be written inside a literal. *)
Definition dquote : string := String (ascii_of_nat 34) EmptyString.
Definition newline : string := String (ascii_of_nat 10) EmptyString.

(** [s.endswith(suffix)]: [s] is [suffix], or its tail ends with it. *)
Fixpoint endswith (s suffix : string) : bool :=
  String.eqb s suffix ||
  match s with
  | EmptyString => false
  | String _ s' => endswith s' suffix
  end.

(** [s.startswith(prefix)]. *)
Definition startswith (s prefix : string) : bool := String.prefix prefix s.

(** [s.split(sep)] for a non-empty separator: a left-to-right scan cutting
    at every non-overlapping occurrence of [sep]. [skip] counts the
    characters of a matched separator still to be passed over. The result
    always has at least one segment. *)
Fixpoint split_go (sep : string) (skip : nat) (s : string) : list string :=
  match s with
  | EmptyString => [EmptyString]
  | String c s' =>
      match skip with
      | S k => split_go sep k s'
      | O =>
          if String.prefix sep s
          then EmptyString :: split_go sep (String.length sep - 1) s'
          else match split_go sep 0 s' with
               | seg :: segs => String c seg :: segs
               | [] => [String c EmptyString]
               end
      end
  end.

Definition split (s sep : string) : list string := split_go sep 0 s.

(** [l[0]] and [l[-1]] on the (never empty) result of [split]. *)
Definition first (l : list string) : string := hd EmptyString l.
Definition final (l : list string) : string := List.last l EmptyString.

(** [s.replace(old, new)] for a non-empty [old]: every non-overlapping
    occurrence, scanning from the left, is replaced. *)
Fixpoint replace_go (old new : string) (skip : nat) (s : string) : string :=
  match s with
  | EmptyString => EmptyString
  | String c s' =>
      match skip with
      | S k => replace_go old new k s'
      | O =>
          if String.prefix old s
          then new +:+ replace_go old new (String.length old - 1) s'
          else String c (replace_go old new 0 s')
      end
  end.

Definition replace (s old new : string) : string := replace_go old new 0 s.

(** [str(n)] for an [int]: decimal digits, with a leading minus sign for
    negative values. *)
Definition str (n : Z) : string := NilEmpty.string_of_int (Z.to_int n).

(** One lower-case hexadecimal digit. *)
Definition hex_digit (n : N) : ascii :=
  match String.get (N.to_nat n) "0123456789abcdef" with
  | Some c => c
  | None => "?"%char
  end.

(** [bytes.hex()]: exactly two hexadecimal digits per byte. *)
Definition byte_hex (b : byte) : string :=
  let n := Byte.to_N b in
  String (hex_digit (n / 16)) (String (hex_digit (n mod 16)) EmptyString).

Fixpoint bytes_hex (bs : list byte) : string :=
  match bs with
  | [] => EmptyString
  | b :: bs' => byte_hex b +:+ bytes_hex bs'
  end.

(** [hex(b)] for an element of a [bytes] object (0..255): the prefix 0x
    and the digits without padding. *)
Definition hex (b : byte) : string :=
  let n := Byte.to_N b in
  if (n <? 16)%N
  then "0x" +:+ String (hex_digit n) EmptyString
  else "0x" +:+ byte_hex b.

(** [int.from_bytes(bs, byteorder='little')], unsigned. *)
Fixpoint from_bytes_le (bs : list byte) : Z :=
  match bs with
  | [] => 0%Z
  | b :: bs' => (Z.of_N (Byte.to_N b) + 256 * from_bytes_le bs')%Z
  end.

(** [int.from_bytes(bs, byteorder='little', signed=True)]: two's
    complement over [8 * len(bs)] bits; the empty sequence gives 0. *)
Definition int_from_bytes (bs : list byte) : Z :=
  let u := from_bytes_le bs in
  let bits := (8 * Z.of_nat (length bs))%Z in
  if (0 <? bits)%Z && (2 ^ (bits - 1) <=? u)%Z then (u - 2 ^ bits)%Z else u.

(** [list(dict.fromkeys(l))]: a dict keeps its keys in insertion order and
    setting a key already present leaves its position unchanged. The dict
    is an association list; every value is [None], written [tt]. *)
Definition dict_setitem (d : list (string * unit)) (k : string) (v : unit)
  : list (string * unit) :=
  if existsb (String.eqb k) (map fst d)
  then map (λ kv, if String.eqb (fst kv) k then (fst kv, v) else kv) d
  else d ++ [(k, v)].

Definition dict_fromkeys (l : list string) : list (string * unit) :=
  fold_left (λ d k, dict_setitem d k tt) l [].

Definition dict_keys (d : list (string * unit)) : list string := map fst d.

End Py.

(** ** Exceptions, results and the world the script acts on *)

Inductive exn : Type :=
  | ValueError (msg : string)
  | AssertionError
  | TypeError (msg : string)
  | IndexError
  | RecursionError
  | FileNotFoundError (path : string)
  | FileExistsError (path : string)
  | NotADirectoryError (path : string)
  | IsADirectoryError (path : string)
  | UnidentifiedImageError (path : string)
  | WaveError (path : string).

(** The subclasses of [OSError] among the exceptions above. *)
Definition is_OSError (e : exn) : bool :=
  match e with
  | FileNotFoundError _ | FileExistsError _
  | NotADirectoryError _ | IsADirectoryError _ => true
  | _ => false
  end.

Inductive result (A : Type) : Type :=
  | Ok (a : A)
  | Raise (e : exn).
Arguments Ok {A} a.
Arguments Raise {A} e.

(** What the script does to its environment, in call order: lines printed
    on standard output and files opened (with the mode of [open]). *)
Inductive event : Type :=
  | EvPrint (line : string)
  | EvOpen (path mode : string).

(** The world: regular files with their bytes, directories, and the events
    so far. Paths are compared as written: the model does not identify
    different spellings of one location (dot segments, repeated or trailing
    separators, links), and has no permissions. *)
Record World : Type := mkWorld {
  files : gmap string (list byte);
  dirs : gset string;
  trace : list event
}.

Definition set_files (f : gmap string (list byte)) (w : World) : World :=
  {| files := f; dirs := dirs w; trace := trace w |}.
Definition set_dirs (d : gset string) (w : World) : World :=
  {| files := files w; dirs := d; trace := trace w |}.
Definition log (e : event) (w : World) : World :=
  {| files := files w; dirs := dirs w; trace := trace w ++ [e] |}.

(** Lines printed, paths opened for writing and paths opened for reading in
    a sequence of events, oldest first. *)
Definition printed (t : list event) : list string :=
  omap (λ e, match e with EvPrint l => Some l | _ => None end) t.
Definition write_opens (t : list event) : list string :=
  omap (λ e, match e with
             | EvOpen p m => if String.eqb m "w" then Some p else None
             | _ => None
             end) t.

Definition stdout (w : World) : list string := printed (trace w).
Definition opened_for_writing (w : World) : list string := write_opens (trace w).

(** A computation that may change the world and either returns or raises.
    An exception leaves the world as it was when it was raised. *)
Definition M (A : Type) : Type := World → World * result A.

#[global] Instance M_ret : MRet M := λ A a w, (w, Ok a).
#[global] Instance M_bind : MBind M := λ A B f m w,
  match m w with
  | (w', Ok a) => f a w'
  | (w', Raise e) => (w', Raise e)
  end.

Definition raise {A : Type} (e : exn) : M A := λ w, (w, Raise e).
Definition lift {A : Type} (r : result A) : M A := λ w, (w, r).

(** [try: m  except: handler]. *)
Definition try_except {A : Type} (m : M A) (handler : exn → M A) : M A := λ w,
  match m w with
  | (w', Ok a) => (w', Ok a)
  | (w', Raise e) => handler e w'
  end.

(** [assert cond]. *)
Definition py_assert (cond : bool) : M unit :=
  if cond then mret tt else raise AssertionError.

(** [for x in l: body]. *)
Fixpoint for_each {A : Type} (l : list A) (body : A → M unit) : M unit :=
  match l with
  | [] => mret tt
  | x :: l' => body x;; for_each l' body
  end.

Definition is_empty (s : string) : bool :=
  match s with EmptyString => true | String _ _ => false end.

(** ** [os.path] (posixpath) *)

Module OsPath.

(** [(p[:i], p[i:])] for [i = p.rfind('/') + 1]. *)
Fixpoint rcut (p : string) : string * string :=
  match p with
  | EmptyString => (EmptyString, EmptyString)
  | String c p' =>
      let '(h, t) := rcut p' in
      match h with
      | String _ _ => (String c h, t)
      | EmptyString =>
          if Ascii.eqb c "/" then (String c EmptyString, t)
          else (EmptyString, String c t)
      end
  end.

(** [s.rstrip('/')]. *)
Fixpoint rstrip_sep (s : string) : string :=
  match s with
  | EmptyString => EmptyString
  | String c s' =>
      match rstrip_sep s' with
      | EmptyString =>
          if Ascii.eqb c "/" then EmptyString else String c EmptyString
      | r => String c r
      end
  end.

(** [s == '/' * len(s)]. *)
Fixpoint all_sep (s : string) : bool :=
  match s with
  | EmptyString => true
  | String c s' => Ascii.eqb c "/" && all_sep s'
  end.

(** The head of a split path loses its trailing separators unless it
    consists of separators only. *)
Definition strip_head (head : string) : string :=
  if negb (is_empty head) && negb (all_sep head) then rstrip_sep head
  else head.

(** [os.path.split(p)] and [os.path.dirname(p)]. *)
Definition split (p : string) : string * string :=
  let '(head, tail) := rcut p in (strip_head head, tail).

Definition dirname (p : string) : string := strip_head (fst (rcut p)).

(** [os.path.join(a, b)]: an absolute [b] replaces [a]; otherwise [b] is
    appended, after a separator unless [a] is empty or ends with one. *)
Definition join (a b : string) : string :=
  if Py.startswith b "/" then b
  else if is_empty a || Py.endswith a "/" then a +:+ b
  else a +:+ "/" +:+ b.

End OsPath.

(** ** [os], [open] and [print] *)

Module Os.

(** The empty path names nothing. *)
Definition isfile (w : World) (p : string) : bool :=
  negb (is_empty p) && bool_decide (is_Some (files w !! p)).

(** A directory is one that was created or given, or the root. *)
Definition isdir (w : World) (p : string) : bool :=
  negb (is_empty p) && (bool_decide (p ∈ dirs w) || OsPath.all_sep p).

Definition path_exists (w : World) (p : string) : bool :=
  isfile w p || isdir w p.

(** What stops an entry from being created at [path], if anything: the
    empty path names nothing; the parent must be a directory (an empty
    parent is the current directory). *)
Definition parent_error (w : World) (path : string) : option exn :=
  let parent := OsPath.dirname path in
  if is_empty path then Some (FileNotFoundError path)
  else if is_empty parent || isdir w parent then None
  else if isfile w parent then Some (NotADirectoryError path)
  else Some (FileNotFoundError path).

(** [os.mkdir(path)]. *)
Definition mkdir (path : string) : M unit := λ w,
  if is_empty path then (w, Raise (FileNotFoundError path))
  else if path_exists w path then (w, Raise (FileExistsError path))
  else match parent_error w path with
       | Some e => (w, Raise e)
       | None => (set_dirs ({[path]} ∪ dirs w) w, Ok tt)
       end.

(** The last step of [os.makedirs(name, exist_ok=True)]:
    [try: mkdir(name)  except OSError: if not path.isdir(name): raise]. *)
Definition mkdir_exist_ok (name : string) : M unit :=
  try_except (mkdir name) (λ e w,
    if is_OSError e
    then if negb (isdir w name) then (w, Raise e) else (w, Ok tt)
    else (w, Raise e)).

(** [os.makedirs(name, exist_ok=True)], following CPython: create the
    missing ancestors first (recursively on the head of the path), then
    the leaf. [fuel] bounds the recursion depth; the head is shorter than
    the name, so the length of the name plus one is enough. *)
Fixpoint makedirs_go (fuel : nat) (name : string) : M unit :=
  match fuel with
  | O => raise RecursionError
  | S fuel' =>
      let '(head, tail) := OsPath.split name in
      let '(head, tail) :=
        if is_empty tail then OsPath.split head else (head, tail) in
      λ w,
        if negb (is_empty head) && negb (is_empty tail)
           && negb (path_exists w head)
        then
          (try_except (makedirs_go fuel' head)
             (λ e, match e with
                   | FileExistsError _ => mret tt
                   | _ => raise e
                   end);;
           if String.eqb tail "." then mret tt else mkdir_exist_ok name) w
        else mkdir_exist_ok name w
  end.

Definition makedirs (name : string) : M unit :=
  makedirs_go (S (String.length name)) name.

(** [open(path, 'w')]: the file is created or truncated. The handle is
    the path. *)
Definition open_w (path : string) : M string := λ w,
  let w := log (EvOpen path "w") w in
  if isdir w path then (w, Raise (IsADirectoryError path))
  else match parent_error w path with
       | Some e => (w, Raise e)
       | None => (set_files (<[path := []]> (files w)) w, Ok path)
       end.

(** [handle.write(text)]: the text is appended to what was written. *)
Definition write (handle text : string) : M unit := λ w,
  (set_files
     (<[handle := default [] (files w !! handle)
                  ++ String.list_byte_of_string text]> (files w)) w,
   Ok tt).

(** [handle.close()]. *)
Definition close (handle : string) : M unit := mret tt.

(** [open(path, 'rb')] followed by reading: the bytes of the file. *)
Definition open_rb (path : string) : M (list byte) := λ w,
  let w := log (EvOpen path "rb") w in
  if is_empty path then (w, Raise (FileNotFoundError path))
  else match files w !! path with
       | Some bs => (w, Ok bs)
       | None =>
           if isdir w path then (w, Raise (IsADirectoryError path))
           else (w, Raise (FileNotFoundError path))
       end.

(** [print(line)]. *)
Definition print (line : string) : M unit := λ w, (log (EvPrint line) w, Ok tt).

End Os.

(** ** The decoding collaborators *)

(** The [wave] module's reader: the frame count declared by the container
    (the size of its data chunk divided by the frame size), the number of
    bytes of one frame, and the bytes of the data chunk not read yet. *)
Module Wave.

Record Wave_read : Type := mkWave {
  nframes : nat;
  framesize : nat;
  data : list byte
}.

(** [wav.getnframes()]: the declared count; it does not change when the
    reader is closed. *)
Definition getnframes (wav : Wave_read) : Z := Z.of_nat (nframes wav).

(** [wav.readframes(n)]: at most [n] frames' worth of bytes, fewer when
    the data runs out. *)
Definition readframes (n : nat) (wav : Wave_read) : list byte * Wave_read :=
  (take (n * framesize wav) (data wav),
   {| nframes := nframes wav;
      framesize := framesize wav;
      data := drop (n * framesize wav) (data wav) |}).

(** [wav.close()]. *)
Definition close (wav : Wave_read) : Wave_read := wav.

End Wave.

(** ** The script *)

(** [input_file.read(n)] on a file opened in binary mode: the next [n]
    bytes (fewer at the end of the file) and the rest. *)
Definition file_read (n : nat) (input_file : list byte) : list byte * list byte :=
  (take n input_file, drop n input_file).

(** The loop of the binary-blob branch of [generate_array]:
    [while byte: out_string += '0x' + byte.hex() + ','; byte = read(1);
    size += 1]. *)
Fixpoint tflite_while (fuel : nat) (input_file byte : list byte)
    (out_string : string) (size : Z) : Z * string :=
  match fuel with
  | O => (size, out_string)
  | S fuel' =>
      match byte with
      | [] => (size, out_string)
      | _ :: _ =>
          let out_string := out_string +:+ "0x" +:+ Py.bytes_hex byte +:+ "," in
          let '(byte, input_file) := file_read 1 input_file in
          tflite_while fuel' input_file byte out_string (size + 1)%Z
      end
  end.

(** The loop of the bitmap branch:
    [for byte in image_bytes: out_string += hex(byte) + ',']. *)
Fixpoint bmp_for (image_bytes : list byte) (out_string : string) : string :=
  match image_bytes with
  | [] => out_string
  | byte :: rest => bmp_for rest (out_string +:+ Py.hex byte +:+ ",")
  end.

(** The loop of the waveform branch:
    [for _ in range(nframes): frame = wav_file.readframes(1);
    out_string += str(int.from_bytes(frame, 'little', signed=True)) + ',']. *)
Fixpoint wav_for (n : nat) (wav_file : Wave.Wave_read) (out_string : string)
    : Wave.Wave_read * string :=
  match n with
  | O => (wav_file, out_string)
  | S n' =>
      let '(frame, wav_file) := Wave.readframes 1 wav_file in
      wav_for n' wav_file (out_string +:+ Py.str (Py.int_from_bytes frame) +:+ ",")
  end.

(** [generate_file(out_fname, array_name, array_type, array_contents, size)]:
    write an array of values to a CC or header file. *)
Definition generate_file
    (out_fname array_name array_type array_contents : string) (size : Z)
    : M unit :=
  Os.makedirs (OsPath.dirname out_fname);;
  if Py.endswith out_fname ".cc" then
    out_cc_file ← Os.open_w out_fname;
    Os.write out_cc_file
      ("#include " +:+ Py.dquote
       +:+ Py.replace (Py.final (Py.split out_fname "genfiles/")) ".cc" ".h"
       +:+ Py.dquote +:+ Py.newline +:+ Py.newline);;
    Os.write out_cc_file
      ("alignas(16) const " +:+ array_type +:+ " " +:+ array_name +:+ "[] = {");;
    Os.write out_cc_file array_contents;;
    Os.write out_cc_file ("};" +:+ Py.newline);;
    Os.write out_cc_file
      ("const unsigned int " +:+ array_name +:+ "_size = " +:+ Py.str size +:+ ";");;
    Os.close out_cc_file
  else if Py.endswith out_fname ".h" then
    out_hdr_file ← Os.open_w out_fname;
    Os.write out_hdr_file
      ("extern const " +:+ array_type +:+ " " +:+ array_name +:+ "[];"
       +:+ Py.newline);;
    Os.write out_hdr_file
      ("extern const unsigned int " +:+ array_name +:+ "_size;");;
    Os.close out_hdr_file
  else
    raise (ValueError "generated file must be end with .cc or .h").

(** [get_array_name(input_fname)]: the function returns a two-element list
    in each of its three branches and has no fourth one, so any other path
    falls off its end and the call returns Python's [None] (here [Ok None]);
    nothing in it raises. *)
Definition get_array_name (input_fname : string)
    : result (option (string * string)) :=
  let base_array_name :=
    "g_" +:+ Py.final (Py.split (Py.first (Py.split input_fname ".")) "/") in
  if Py.endswith input_fname ".tflite" then
    Ok (Some (base_array_name +:+ "_model_data", "unsigned char"))
  else if Py.endswith input_fname ".bmp" then
    Ok (Some (base_array_name +:+ "_image_data", "unsigned char"))
  else if Py.endswith input_fname ".wav" then
    Ok (Some (base_array_name +:+ "_audio_data", "short"))
  else
    Ok None.

(** [a, b = value]: unpacking [None] raises [TypeError]. *)
Definition unpack2 {A B : Type} (value : option (A * B)) : M (A * B) :=
  match value with
  | Some ab => mret ab
  | None => raise (TypeError "cannot unpack non-iterable NoneType object")
  end.

(** The parsed command line: [args.output] and [args.inputs]. *)
Record Namespace : Type := mkArgs {
  output : string;
  inputs : list string
}.

Section Script.

(** The image-decoding collaborator, [Image.open(path).tobytes()] as a
    function of the file's bytes: the decoded pixel buffer, or nothing
    when the file is not an image. *)
Variable Image_decode : list byte → option (list byte).

(** The waveform-container collaborator, [wave.open(path)] as a function
    of the file's bytes: a reader positioned at the first frame, or
    nothing when the file is not a waveform container. *)
Variable wave_parse : list byte → option Wave.Wave_read.

Definition Image_open_tobytes (path : string) : M (list byte) :=
  bs ← Os.open_rb path;
  match Image_decode bs with
  | Some image_bytes => mret image_bytes
  | None => raise (UnidentifiedImageError path)
  end.

Definition wave_open (path : string) : M Wave.Wave_read :=
  bs ← Os.open_rb path;
  match wave_parse bs with
  | Some wav_file => mret wav_file
  | None => raise (WaveError path)
  end.

(** [generate_array(input_fname)]: return array size and array of data
    from the input file. *)
Definition generate_array (input_fname : string) : M (Z * string) :=
  if Py.endswith input_fname ".tflite" then
    input_file ← Os.open_rb input_fname;
    let out_string := EmptyString in
    let '(byte, rest) := file_read 1 input_file in
    let size := 0%Z in
    mret (tflite_while (S (length input_file)) rest byte out_string size)
  else if Py.endswith input_fname ".bmp" then
    image_bytes ← Image_open_tobytes input_fname;
    let out_string := bmp_for image_bytes EmptyString in
    mret (Z.of_nat (length image_bytes), out_string)
  else if Py.endswith input_fname ".wav" then
    wav_file ← wave_open input_fname;
    let '(wav_file, out_string) :=
      wav_for (Z.to_nat (Wave.getnframes wav_file)) wav_file EmptyString in
    let wav_file := Wave.close wav_file in
    mret (Wave.getnframes wav_file, out_string)
  else
    raise (ValueError "input file must be .tflite, .bmp or .wav").

(** The body of the loop of [main] in directory mode. *)
Definition main_for_body (args : Namespace) (input_file : string) : M unit :=
  let output_base_fname :=
    OsPath.join (output args) (Py.first (Py.split input_file ".")) in
  output_base_fname ←
    (if Py.endswith input_file ".tflite" then
       mret (output_base_fname +:+ "_model_data")
     else if Py.endswith input_file ".bmp" then
       mret (output_base_fname +:+ "_image_data")
     else if Py.endswith input_file ".wav" then
       mret (output_base_fname +:+ "_audio_data")
     else
       raise (ValueError "input file must be .tflite, .bmp or .wav"));
  let output_cc_fname := output_base_fname +:+ ".cc" in
  Os.print output_cc_fname;;
  let output_hdr_fname := output_base_fname +:+ ".h" in
  '(size, cc_array) ← generate_array input_file;
  '(generated_array_name, array_type) ←
    (v ← lift (get_array_name input_file); unpack2 v);
  generate_file output_cc_fname generated_array_name array_type
    cc_array size;;
  generate_file output_hdr_fname generated_array_name array_type
    cc_array size.

(** [main()], after [parser.parse_args()]. *)
Definition main (args : Namespace) : M unit :=
  if Py.endswith (output args) ".cc" || Py.endswith (output args) ".h" then
    py_assert (length (inputs args) =? 1);;
    match inputs args !! 0 with
    | None => raise IndexError
    | Some input0 =>
        '(size, cc_array) ← generate_array input0;
        '(generated_array_name, array_type) ←
          (v ← lift (get_array_name input0); unpack2 v);
        generate_file (output args) generated_array_name array_type
          cc_array size
    end
  else
    for_each (Py.dict_keys (Py.dict_fromkeys (inputs args)))
      (main_for_body args).

End Script.

(** ** Vocabulary of the specification *)

(** The three recognized kinds of input, classified by the extension. *)
Inductive Kind : Type := BinaryBlob | BitmapImage | AudioWaveform.

Definition kind_of_path (path : string) : option Kind :=
  if Py.endswith path ".tflite" then Some BinaryBlob
  else if Py.endswith path ".bmp" then Some BitmapImage
  else if Py.endswith path ".wav" then Some AudioWaveform
  else None.

Definition kind_suffix (k : Kind) : string :=
  match k with
  | BinaryBlob => "_model_data"
  | BitmapImage => "_image_data"
  | AudioWaveform => "_audio_data"
  end.

Definition extension (k : Kind) : string :=
  match k with
  | BinaryBlob => ".tflite"
  | BitmapImage => ".bmp"
  | AudioWaveform => ".wav"
  end.

Definition element_type (k : Kind) : string :=
  match k with
  | BinaryBlob | BitmapImage => "unsigned char"
  | AudioWaveform => "short"
  end.

(** The base name in the specification's words: split the path on the dot
    and take the first segment, then take the final slash-delimited segment
    of that. *)
Definition base_name (path : string) : string :=
  Py.final (Py.split (Py.first (Py.split path ".")) "/").

(** The same two cuts, character by character: what precedes the first
    occurrence of a character, and what follows its last occurrence. *)
Fixpoint before_first (c : ascii) (s : string) : string :=
  match s with
  | EmptyString => EmptyString
  | String x s' => if Ascii.eqb x c then EmptyString else String x (before_first c s')
  end.

Fixpoint contains_char (c : ascii) (s : string) : bool :=
  match s with
  | EmptyString => false
  | String x s' => Ascii.eqb x c || contains_char c s'
  end.

Fixpoint after_last (c : ascii) (s : string) : string :=
  match s with
  | EmptyString => EmptyString
  | String x s' => if contains_char c s then after_last c s' else s
  end.

(** The last character of a string. *)
Fixpoint last_char (s : string) : option ascii :=
  match s with
  | EmptyString => None
  | String c EmptyString => Some c
  | String _ s' => last_char s'
  end.

(** A content blob: the tokens one after the other. *)
Definition blob (tokens : list string) : string :=
  foldr String.append EmptyString tokens.

(** The token of one byte of a binary blob. *)
Definition hex_token (b : byte) : string := "0x" +:+ Py.byte_hex b +:+ ",".

Definition is_hex_digit (c : ascii) : bool :=
  contains_char c "0123456789abcdef".

(** The value a hexadecimal digit stands for. *)
Definition hex_value (c : ascii) : N :=
  let n := N_of_ascii c in
  if (n <? 58)%N then (n - 48)%N else (n - 87)%N.

(** The raw bytes of the [i]-th frame of a waveform: [framesize] bytes of
    the data chunk from offset [i * framesize]. *)
Definition frame (wav : Wave.Wave_read) (i : nat) : list byte :=
  take (Wave.framesize wav) (drop (i * Wave.framesize wav) (Wave.data wav)).

(** The token of one frame. *)
Definition sample_token (raw : list byte) : string :=
  Py.str (Py.int_from_bytes raw) +:+ ",".

(** The first occurrences of the elements of a list, in order. *)
Fixpoint first_occurrences (l : list string) : list string :=
  match l with
  | [] => []
  | x :: l' => x :: filter (λ y, y ≠ x) (first_occurrences l')
  end.

(** The output base path of directory mode as [main] computes it: the first
    dot-delimited segment of the whole input path, directories included,
    joined to the output directory, then the suffix of the kind. *)
Definition output_base_fname (out input_file : string) (k : Kind) : string :=
  OsPath.join out (Py.first (Py.split input_file ".")) +:+ kind_suffix k.





(** Whether a pattern occurs somewhere in a string. *)
Fixpoint occurs (pat s : string) : bool :=
  String.prefix pat s ||
  match s with
  | EmptyString => false
  | String _ s' => occurs pat s'
  end.

(** The include path as the specification words it: the portion of the
    output path after the last occurrence of the marker, with the
    definition suffix at its end swapped for the declaration suffix. *)
Fixpoint without_suffix (s suffix : string) : option string :=
  if String.eqb s suffix then Some EmptyString
  else match s with
       | EmptyString => None
       | String c s' => String c <$> without_suffix s' suffix
       end.

Definition spec_include_path (out_fname : string) : string :=
  let kept := Py.final (Py.split out_fname "genfiles/") in
  match without_suffix kept ".cc" with
  | Some stem => stem +:+ ".h"
  | None => kept
  end.

(** The text of a definition file and of a declaration file. *)
Definition definition_text
    (include_path array_type array_name array_contents : string) (size : Z)
    : string :=
  ("#include " +:+ Py.dquote +:+ include_path +:+ Py.dquote
   +:+ Py.newline +:+ Py.newline)
  +:+ ("alignas(16) const " +:+ array_type +:+ " " +:+ array_name +:+ "[] = {")
  +:+ array_contents
  +:+ ("};" +:+ Py.newline)
  +:+ ("const unsigned int " +:+ array_name +:+ "_size = " +:+ Py.str size +:+ ";").

Definition declaration_text (array_type array_name : string) : string :=
  ("extern const " +:+ array_type +:+ " " +:+ array_name +:+ "[];" +:+ Py.newline)
  +:+ ("extern const unsigned int " +:+ array_name +:+ "_size;").

(** ** Fixtures for the scenarios *)

(** A stand-in for the image decoder that recognizes nothing, and one for
    the waveform reader that takes the whole file as the data chunk of
    16-bit mono frames. *)
Definition no_image (_ : list byte) : option (list byte) := None.

Definition raw_pcm16 (bs : list byte) : option Wave.Wave_read :=
  Some (Wave.mkWave (length bs / 2) 2 bs).

Definition empty_world : World := mkWorld ∅ ∅ [].

(** [model.tflite] holds the bytes 1 and 2; [sound.wav] holds the samples
    -1, 0 and 32767. *)
Definition scenario_world : World :=
  mkWorld
    {[ "model.tflite" := [x01; x02];
       "sound.wav" := [xff; xff; x00; x00; xff; x7f];
       "dir/other.tflite" := [x0a] ]}
    ∅ [].

(** ** Decimal literals and little-endian signed values, in their own terms *)

(** The value of a decimal digit character. *)
Definition digit_value (c : ascii) : option Z :=
  let n := Z.of_N (N_of_ascii c) in
  if (48 <=? n)%Z && (n <=? 57)%Z then Some (n - 48)%Z else None.

(** The value of a run of decimal digits read from the left, starting from
    [acc]. *)
Fixpoint digits_value (s : string) (acc : Z) : option Z :=
  match s with
  | EmptyString => Some acc
  | String c s' =>
      match digit_value c with
      | Some d => digits_value s' (10 * acc + d)%Z
      | None => None
      end
  end.

(** The value of a decimal literal of a natural number: a single zero, or
    digits that do not start with a zero. *)
Definition natural_value (s : string) : option Z :=
  match s with
  | EmptyString => None
  | String c s' =>
      if Ascii.eqb c "0" then (if is_empty s' then Some 0%Z else None)
      else digits_value s 0%Z
  end.

(** The value of a decimal literal of an integer: a natural literal, or a
    minus sign and the literal of a positive number. Nothing else is a
    literal. *)
Definition decimal_value (s : string) : option Z :=
  match s with
  | EmptyString => None
  | String c s' =>
      if Ascii.eqb c "-"
      then match natural_value s' with
           | Some n => if (0 <? n)%Z then Some (- n)%Z else None
           | None => None
           end
      else natural_value s
  end.

(** The unsigned little-endian value of raw bytes: the byte at index [i]
    weighs 256 to the [i]. *)
Definition byte_at (raw : list byte) (i : nat) : Z :=
  Z.of_N (Byte.to_N (nth i raw x00)).

Definition le_unsigned (raw : list byte) : Z :=
  foldr Z.add 0%Z
    (map (λ i, (byte_at raw i * 256 ^ Z.of_nat i)%Z) (seq 0 (length raw))).

(** [v] is the little-endian signed (two's complement) value of [raw]: it
    lies in the signed range of the width of [raw] and agrees with the
    unsigned value modulo two to that width; no bytes give zero. *)
Definition le_signed (raw : list byte) (v : Z) : Prop :=
  match raw with
  | [] => v = 0%Z
  | _ :: _ =>
      (- 2 ^ (8 * Z.of_nat (length raw) - 1) ≤ v
       < 2 ^ (8 * Z.of_nat (length raw) - 1))%Z
      ∧ (v mod 2 ^ (8 * Z.of_nat (length raw)))%Z = le_unsigned raw
  end.

(** The value of a [Decimal.uint] read from the left, starting from [acc]. *)
Fixpoint uint_value (d : Decimal.uint) (acc : Z) : Z :=
  match d with
  | Decimal.Nil => acc
  | Decimal.D0 l => uint_value l (10 * acc + 0)%Z
  | Decimal.D1 l => uint_value l (10 * acc + 1)%Z
  | Decimal.D2 l => uint_value l (10 * acc + 2)%Z
  | Decimal.D3 l => uint_value l (10 * acc + 3)%Z
  | Decimal.D4 l => uint_value l (10 * acc + 4)%Z
  | Decimal.D5 l => uint_value l (10 * acc + 5)%Z
  | Decimal.D6 l => uint_value l (10 * acc + 6)%Z
  | Decimal.D7 l => uint_value l (10 * acc + 7)%Z
  | Decimal.D8 l => uint_value l (10 * acc + 8)%Z
  | Decimal.D9 l => uint_value l (10 * acc + 9)%Z
  end.

(** ** Further vocabulary and fixtures *)

(** The token of one byte of a decoded pixel buffer. *)
Definition pixel_token (b : byte) : string := Py.hex b +:+ ",".

(** The range of the C type [short]. *)
Definition fits_short (v : Z) : Prop := (-32768 ≤ v ≤ 32767)%Z.

(** A stand-in for the image decoder: the file's bytes after a two-byte
    header are the pixel buffer. *)
Definition after_header (bs : list byte) : option (list byte) := Some (drop 2 bs).

Definition bitmap_world : World :=
  mkWorld {[ "img.bmp" := [x42; x4d; x00; x0a; xff] ]} ∅ [].

(** What a run may do to the files and directories: no directory goes
    away, no file goes away, and a file whose path ends in neither .cc nor
    .h keeps its content. *)
Definition only_artifacts_change (w w' : World) : Prop :=
  dirs w ⊆ dirs w'
  ∧ (∀ p, is_Some (files w !! p) → is_Some (files w' !! p))
  ∧ ∀ p, Py.endswith p ".cc" = false → Py.endswith p ".h" = false →
         files w' !! p = files w !! p.

(** Two inputs that differ after their first dot only. *)
Definition stem_world : World :=
  mkWorld {[ "m.a.tflite" := [x01]; "m.b.tflite" := [x02; x03] ]} ∅ [].

(* ===================================================================== *)
(** * Part II: lemmas *)
(* ===================================================================== *)

(** ** The built-ins on examples *)

Example split_dots : Py.split "a.b.c" "." = ["a"; "b"; "c"].
Proof. reflexivity. Qed.
Example split_multi : Py.split "xgenfiles/ygenfiles/z" "genfiles/" = ["x"; "y"; "z"].
Proof. reflexivity. Qed.
Example split_overlap : Py.split "aaaa" "aa" = [EmptyString; EmptyString; EmptyString].
Proof. reflexivity. Qed.
Example replace_all : Py.replace "a.cc/b.cc" ".cc" ".h" = "a.h/b.h".
Proof. reflexivity. Qed.
Example str_neg : Py.str (-5) = "-5" ∧ Py.str 0 = "0" ∧ Py.str 32767 = "32767".
Proof. repeat split; reflexivity. Qed.
Example hex_ex : Py.hex x0a = "0xa" ∧ Py.byte_hex x0a = "0a" ∧ Py.byte_hex xff = "ff".
Proof. repeat split; reflexivity. Qed.
Example from_bytes_ex :
  Py.int_from_bytes [xff; xff] = (-1)%Z ∧
  Py.int_from_bytes [xff; x7f] = 32767%Z ∧
  Py.int_from_bytes [x00; x80] = (-32768)%Z ∧
  Py.int_from_bytes [] = 0%Z.
Proof. repeat split; reflexivity. Qed.
Example fromkeys_ex :
  Py.dict_keys (Py.dict_fromkeys ["a"; "b"; "a"; "c"; "b"]) = ["a"; "b"; "c"].
Proof. reflexivity. Qed.

(** ** Strings *)

Lemma app_cons (c : ascii) (s t : string) :
  String c s +:+ t = String c (s +:+ t).
Proof. reflexivity. Qed.

Lemma app_empty_l (s : string) : EmptyString +:+ s = s.
Proof. reflexivity. Qed.

Lemma app_empty_r (s : string) : s +:+ EmptyString = s.
Proof. induction s as [|c s IH]; [reflexivity|]. by rewrite app_cons, IH. Qed.

Lemma app_assoc_str (s t u : string) : (s +:+ t) +:+ u = s +:+ (t +:+ u).
Proof. induction s as [|c s IH]; [reflexivity|]. by rewrite !app_cons, IH. Qed.

Lemma blob_cons (t : string) (l : list string) : blob (t :: l) = t +:+ blob l.
Proof. reflexivity. Qed.

Lemma blob_app (l1 l2 : list string) : blob (l1 ++ l2) = blob l1 +:+ blob l2.
Proof.
  induction l1 as [|t l1 IH]; [reflexivity|].
  change ((t :: l1) ++ l2) with (t :: (l1 ++ l2)).
  by rewrite !blob_cons, IH, app_assoc_str.
Qed.

(** [endswith] is the existence of a prefix. *)
Lemma endswith_app (p suffix : string) : Py.endswith (p +:+ suffix) suffix = true.
Proof.
  induction p as [|c p IH].
  - rewrite app_empty_l. destruct suffix; cbn; rewrite ?Ascii.eqb_refl, ?String.eqb_refl; done.
  - rewrite app_cons. cbn [Py.endswith]. rewrite IH. apply orb_true_r.
Qed.

Lemma endswith_inv (s suffix : string) :
  Py.endswith s suffix = true → ∃ p, s = p +:+ suffix.
Proof.
  induction s as [|c s IH]; cbn [Py.endswith]; intros H.
  - apply orb_true_iff in H as [H|H]; [|done].
    apply String.eqb_eq in H. exists EmptyString. by subst.
  - apply orb_true_iff in H as [H|H].
    + apply String.eqb_eq in H. exists EmptyString. by subst.
    + destruct (IH H) as [p ->]. by exists (String c p).
Qed.

Lemma last_char_app (p s : string) :
  s ≠ EmptyString → last_char (p +:+ s) = last_char s.
Proof.
  intros Hs. induction p as [|c p IH]; [done|].
  rewrite app_cons. cbn [last_char]. rewrite IH.
  destruct (p +:+ s) eqn:E; [|done].
  destruct p; [|done]. rewrite app_empty_l in E. done.
Qed.

Lemma endswith_last_char (s suffix : string) :
  suffix ≠ EmptyString → Py.endswith s suffix = true →
  last_char s = last_char suffix.
Proof.
  intros Hs H. destruct (endswith_inv _ _ H) as [p ->]. by apply last_char_app.
Qed.

(** A path has at most one of the three recognized extensions. *)
Lemma endswith_tflite_not_bmp (s : string) :
  Py.endswith s ".tflite" = true → Py.endswith s ".bmp" = false.
Proof.
  intros H. destruct (Py.endswith s ".bmp") eqn:E; [|done].
  apply endswith_last_char in H; [|done].
  apply endswith_last_char in E; [|done]. rewrite H in E. discriminate.
Qed.

Lemma endswith_wav_not_tflite (s : string) :
  Py.endswith s ".wav" = true → Py.endswith s ".tflite" = false.
Proof.
  intros H. destruct (Py.endswith s ".tflite") eqn:E; [|done].
  apply endswith_last_char in H; [|done].
  apply endswith_last_char in E; [|done]. rewrite H in E. discriminate.
Qed.

Lemma endswith_wav_not_bmp (s : string) :
  Py.endswith s ".wav" = true → Py.endswith s ".bmp" = false.
Proof.
  intros H. destruct (Py.endswith s ".bmp") eqn:E; [|done].
  apply endswith_last_char in H; [|done].
  apply endswith_last_char in E; [|done]. rewrite H in E. discriminate.
Qed.

Lemma kind_of_path_tflite (p : string) :
  kind_of_path p = Some BinaryBlob ↔ Py.endswith p ".tflite" = true.
Proof.
  unfold kind_of_path. split.
  - by repeat case_match.
  - by intros ->.
Qed.

Lemma kind_of_path_bmp (p : string) :
  kind_of_path p = Some BitmapImage ↔ Py.endswith p ".bmp" = true.
Proof.
  unfold kind_of_path. split.
  - by repeat case_match.
  - intros H. destruct (Py.endswith p ".tflite") eqn:E; [|by rewrite H].
    apply endswith_tflite_not_bmp in E. congruence.
Qed.

Lemma kind_of_path_wav (p : string) :
  kind_of_path p = Some AudioWaveform ↔ Py.endswith p ".wav" = true.
Proof.
  unfold kind_of_path. split.
  - by repeat case_match.
  - intros H. rewrite (endswith_wav_not_tflite _ H), (endswith_wav_not_bmp _ H).
    by rewrite H.
Qed.

Lemma kind_of_path_extension (p : string) (k : Kind) :
  kind_of_path p = Some k ↔ Py.endswith p (extension k) = true.
Proof.
  destruct k; cbn [extension].
  - apply kind_of_path_tflite.
  - apply kind_of_path_bmp.
  - apply kind_of_path_wav.
Qed.

Lemma kind_of_path_None (p : string) :
  kind_of_path p = None ↔
  Py.endswith p ".tflite" = false ∧ Py.endswith p ".bmp" = false
  ∧ Py.endswith p ".wav" = false.
Proof.
  unfold kind_of_path. split.
  - by repeat case_match.
  - by intros (-> & -> & ->).
Qed.

(** ** Splitting on one character *)

Lemma split_go_nonempty (sep : string) (skip : nat) (s : string) :
  Py.split_go sep skip s ≠ [].
Proof.
  revert skip. induction s as [|c s IH]; intros skip; [done|].
  cbn [Py.split_go]. destruct skip; [|apply IH].
  destruct (String.prefix sep (String c s)); [done|].
  by destruct (Py.split_go sep 0 s).
Qed.

Lemma prefix_char (c x : ascii) (s : string) :
  String.prefix (String c EmptyString) (String x s) = Ascii.eqb x c.
Proof.
  cbn. destruct (ascii_dec c x) as [->|Hne].
  - rewrite Ascii.eqb_refl. by destruct s.
  - symmetry. apply Ascii.eqb_neq. congruence.
Qed.

Lemma split_char_cons (c x : ascii) (s : string) :
  Py.split (String x s) (String c EmptyString) =
  if Ascii.eqb x c then EmptyString :: Py.split s (String c EmptyString)
  else match Py.split s (String c EmptyString) with
       | seg :: segs => String x seg :: segs
       | [] => [String x EmptyString]
       end.
Proof. unfold Py.split. cbn [Py.split_go]. by rewrite prefix_char. Qed.

(** Without the character, the string is its only segment; with it, there
    are at least two. *)
Lemma split_char_shape (c : ascii) (s : string) :
  if contains_char c s
  then ∃ seg seg' segs, Py.split s (String c EmptyString) = seg :: seg' :: segs
  else Py.split s (String c EmptyString) = [s].
Proof.
  induction s as [|x s IH]; [done|].
  rewrite split_char_cons. cbn [contains_char].
  destruct (Ascii.eqb x c); cbn [orb].
  - destruct (Py.split s (String c EmptyString)) as [|seg segs] eqn:E.
    + by apply split_go_nonempty in E.
    + by exists EmptyString, seg, segs.
  - destruct (contains_char c s).
    + destruct IH as (seg & seg' & segs & ->). by exists (String x seg), seg', segs.
    + by rewrite IH.
Qed.

(** [s.split(c)[0]] is what precedes the first [c]. *)
Lemma split_char_first (c : ascii) (s : string) :
  Py.first (Py.split s (String c EmptyString)) = before_first c s.
Proof.
  induction s as [|x s IH]; [done|].
  rewrite split_char_cons. cbn [before_first].
  destruct (Ascii.eqb x c); [done|].
  destruct (Py.split s (String c EmptyString)) as [|seg segs] eqn:E.
  - by apply split_go_nonempty in E.
  - cbn in *. by rewrite IH.
Qed.

(** [s.split(c)[-1]] is what follows the last [c]. *)
Lemma split_char_final (c : ascii) (s : string) :
  Py.final (Py.split s (String c EmptyString)) = after_last c s.
Proof.
  induction s as [|x s IH]; [done|].
  rewrite split_char_cons. cbn [after_last contains_char].
  pose proof (split_char_shape c s) as Hs.
  destruct (Ascii.eqb x c); cbn [orb].
  - destruct (Py.split s (String c EmptyString)) as [|seg segs] eqn:E.
    + by apply split_go_nonempty in E.
    + by rewrite <- IH.
  - destruct (contains_char c s).
    + destruct Hs as (seg & seg' & segs & E). rewrite E in *. by rewrite <- IH.
    + by rewrite Hs.
Qed.

(** The base name is what lies between the last slash that precedes the
    first dot and that dot; it holds neither character. *)
Lemma base_name_chars (path : string) :
  base_name path = after_last "/" (before_first "." path).
Proof. unfold base_name. by rewrite split_char_first, split_char_final. Qed.

Lemma before_first_free (c : ascii) (s : string) :
  contains_char c (before_first c s) = false.
Proof.
  induction s as [|x s IH]; [done|]. cbn [before_first].
  destruct (Ascii.eqb x c) eqn:E; [done|]. cbn. by rewrite E, IH.
Qed.

Lemma after_last_free (c : ascii) (s : string) :
  contains_char c (after_last c s) = false.
Proof.
  induction s as [|x s IH]; [done|]. cbn [after_last].
  destruct (contains_char c (String x s)) eqn:E; done.
Qed.

Lemma after_last_keeps_free (c d : ascii) (s : string) :
  contains_char d s = false → contains_char d (after_last c s) = false.
Proof.
  induction s as [|x s IH]; [done|]. intros H. cbn [after_last].
  destruct (contains_char c (String x s)); [|done].
  apply IH. cbn in H. by apply orb_false_iff in H as [_ ?].
Qed.

Lemma base_name_no_dot_no_slash (path : string) :
  contains_char "." (base_name path) = false
  ∧ contains_char "/" (base_name path) = false.
Proof.
  rewrite base_name_chars. split.
  - apply after_last_keeps_free, before_first_free.
  - apply after_last_free.
Qed.

(** ** The name/type deriver *)

(** C7: for a path with one of the three recognized extensions, the derived
    identifier is g_ followed by the base name (the first dot-delimited
    segment of the path, then the final slash-delimited segment of that) and
    by _model_data, _image_data or _audio_data according to the extension;
    the element type is unsigned char for .tflite and .bmp and short for
    .wav; and the result depends on the path alone. *)
Theorem get_array_name_recognized (path : string) (k : Kind) :
  Py.endswith path (extension k) = true →
  get_array_name path =
    Ok (Some ("g_" +:+ base_name path +:+ kind_suffix k, element_type k))
  ∧ ∀ path', path' = path → get_array_name path' = get_array_name path.
Proof.
  intros H. split; [|by intros ? ->].
  unfold get_array_name, base_name.
  destruct k; cbn [extension kind_suffix element_type] in *.
  - by rewrite H.
  - destruct (Py.endswith path ".tflite") eqn:E.
    + apply endswith_tflite_not_bmp in E. congruence.
    + by rewrite H.
  - rewrite (endswith_wav_not_tflite _ H), (endswith_wav_not_bmp _ H).
    by rewrite H.
Qed.

Lemma get_array_name_recognized_witness :
  Py.endswith "a/b/sound.wav" (extension AudioWaveform) = true
  ∧ (get_array_name "a/b/sound.wav" = Ok (Some ("g_sound_audio_data", "short"))
     ∧ ∀ path', path' = "a/b/sound.wav" →
         get_array_name path' = get_array_name "a/b/sound.wav").
Proof.
  split; [reflexivity|].
  apply (get_array_name_recognized "a/b/sound.wav" AudioWaveform).
  reflexivity.
Defined.

Example get_array_name_examples :
  get_array_name "model.tflite" = Ok (Some ("g_model_model_data", "unsigned char"))
  ∧ get_array_name "img.x.bmp" = Ok (Some ("g_img_image_data", "unsigned char"))
  ∧ get_array_name "a.b/c.d.tflite" = Ok (Some ("g_a_model_data", "unsigned char")).
Proof. repeat split; reflexivity. Qed.

(** For any other path the deriver returns Python's None. *)
Lemma get_array_name_unrecognized (path : string) :
  kind_of_path path = None → get_array_name path = Ok None.
Proof.
  intros H. apply kind_of_path_None in H as (H1 & H2 & H3).
  unfold get_array_name. by rewrite H1, H2, H3.
Qed.

(** C5: on the unsupported path image.png the deriver raises nothing: it
    returns None, where the format reader raises the unsupported-format
    ValueError on the same path. *)
Theorem get_array_name_unsupported_returns_None :
  get_array_name "image.png" = Ok None
  ∧ (∀ e, get_array_name "image.png" ≠ Raise e)
  ∧ ∀ Image_decode wave_parse w,
      generate_array Image_decode wave_parse "image.png" w =
      (w, Raise (ValueError "input file must be .tflite, .bmp or .wav")).
Proof. split; [reflexivity|]. split; [intros e; discriminate|]. reflexivity. Qed.

(** ** Running a computation *)

Lemma bind_run {A B : Type} (m : M A) (f : A → M B) (w : World) :
  (m ≫= f) w =
  match m w with
  | (w', Ok a) => f a w'
  | (w', Raise e) => (w', Raise e)
  end.
Proof. reflexivity. Qed.

Lemma bind_run_ok {A B : Type} (m : M A) (f : A → M B) (w w' : World) (a : A) :
  m w = (w', Ok a) → (m ≫= f) w = f a w'.
Proof. intros H. by rewrite bind_run, H. Qed.

Lemma bind_run_raise {A B : Type} (m : M A) (f : A → M B) (w w' : World) (e : exn) :
  m w = (w', Raise e) → (m ≫= f) w = (w', Raise e).
Proof. intros H. by rewrite bind_run, H. Qed.

Lemma endswith_nonempty (s suffix : string) :
  suffix ≠ EmptyString → Py.endswith s suffix = true → is_empty s = false.
Proof.
  intros Hne H. destruct s; [|done]. by destruct suffix.
Qed.

Lemma open_rb_file (path : string) (bs : list byte) (w : World) :
  is_empty path = false →
  files w !! path = Some bs →
  Os.open_rb path w = (log (EvOpen path "rb") w, Ok bs).
Proof. intros Hne H. unfold Os.open_rb. cbn [files log]. by rewrite Hne, H. Qed.

(** ** Integers from bytes *)

Lemma byte_to_N_lt (b : byte) : (Byte.to_N b < 256)%N.
Proof. pose proof (Byte.to_N_bounded b). lia. Qed.

Lemma from_bytes_le_range (bs : list byte) :
  (0 ≤ Py.from_bytes_le bs < 2 ^ (8 * Z.of_nat (length bs)))%Z.
Proof.
  induction bs as [|b bs IH]; [cbn; lia|].
  cbn [Py.from_bytes_le length].
  pose proof (byte_to_N_lt b).
  replace (8 * Z.of_nat (S (length bs)))%Z
    with (8 + 8 * Z.of_nat (length bs))%Z by lia.
  rewrite Z.pow_add_r by lia. change (2 ^ 8)%Z with 256%Z. lia.
Qed.

(** The signed value lies in the two's complement range of the width and
    agrees with the unsigned value modulo two to the width. *)
Lemma int_from_bytes_range (bs : list byte) :
  bs ≠ [] →
  (- 2 ^ (8 * Z.of_nat (length bs) - 1) ≤ Py.int_from_bytes bs
   < 2 ^ (8 * Z.of_nat (length bs) - 1))%Z.
Proof.
  intros Hne. unfold Py.int_from_bytes.
  pose proof (from_bytes_le_range bs) as Hr.
  assert (0 < 8 * Z.of_nat (length bs))%Z as Hpos by (destruct bs; [done|cbn; lia]).
  set (bits := (8 * Z.of_nat (length bs))%Z) in *.
  assert (2 ^ bits = 2 * 2 ^ (bits - 1))%Z as Hp.
  { rewrite <- Z.pow_succ_r by lia. f_equal. lia. }
  destruct (Z.ltb_spec 0 bits); [|lia]. cbn [andb].
  destruct (Z.leb_spec (2 ^ (bits - 1)) (Py.from_bytes_le bs)); lia.
Qed.

Lemma int_from_bytes_mod (bs : list byte) :
  (Py.int_from_bytes bs mod 2 ^ (8 * Z.of_nat (length bs)))%Z = Py.from_bytes_le bs.
Proof.
  unfold Py.int_from_bytes.
  pose proof (from_bytes_le_range bs) as Hr.
  set (bits := (8 * Z.of_nat (length bs))%Z) in *.
  destruct ((0 <? bits)%Z && (2 ^ (bits - 1) <=? Py.from_bytes_le bs)%Z).
  - replace (Py.from_bytes_le bs - 2 ^ bits)%Z
      with (Py.from_bytes_le bs + (-1) * 2 ^ bits)%Z by lia.
    rewrite Z.mod_add by lia. by apply Z.mod_small.
  - by apply Z.mod_small.
Qed.

Lemma int_from_bytes_nonneg (bs : list byte) :
  (Py.from_bytes_le bs < 2 ^ (8 * Z.of_nat (length bs) - 1))%Z →
  Py.int_from_bytes bs = Py.from_bytes_le bs.
Proof.
  intros H. unfold Py.int_from_bytes.
  destruct (Z.leb_spec (2 ^ (8 * Z.of_nat (length bs) - 1)) (Py.from_bytes_le bs));
    [lia|]. by rewrite andb_false_r.
Qed.

(** ** str renders the decimal literal *)

Lemma digits_value_uint (d : Decimal.uint) :
  ∀ acc, digits_value (NilEmpty.string_of_uint d) acc = Some (uint_value d acc).
Proof. induction d; intros acc; cbn [NilEmpty.string_of_uint digits_value uint_value]; try done; apply IHd. Qed.

Lemma of_uint_acc_value (d : Decimal.uint) :
  ∀ acc, Zpos (Pos.of_uint_acc d acc) = uint_value d (Zpos acc).
Proof.
  induction d; intros acc; cbn [Pos.of_uint_acc uint_value]; try done;
    rewrite IHd; f_equal; change (Pos.mul _ acc) with (10 * acc)%positive; lia.
Qed.

Lemma of_uint_value (d : Decimal.uint) :
  Z.of_N (Pos.of_uint d) = uint_value d 0.
Proof.
  induction d; cbn [Pos.of_uint uint_value]; try done;
    cbn [Z.of_N]; by rewrite of_uint_acc_value.
Qed.

Lemma to_uint_value (p : positive) : uint_value (Pos.to_uint p) 0 = Zpos p.
Proof. by rewrite <- of_uint_value, Unsigned.of_to. Qed.

Lemma to_uint_normal (p : positive) : Decimal.unorm (Pos.to_uint p) = Pos.to_uint p.
Proof.
  rewrite <- (Unsigned.to_of (Pos.to_uint p)), Unsigned.of_to. reflexivity.
Qed.

(** The digits of a positive number do not start with a zero. *)
Lemma to_uint_no_leading_zero (p : positive) (l : Decimal.uint) :
  Pos.to_uint p ≠ Decimal.D0 l.
Proof.
  intros H. pose proof (to_uint_normal p) as Hn. rewrite H in Hn.
  change (Decimal.unorm l = Decimal.D0 l) in Hn.
  assert (l = Decimal.Nil ∨ l ≠ Decimal.Nil) as [->|Hl]
    by (destruct l; (by left) || (by right)).
  - pose proof (Unsigned.to_uint_nonzero p) as Hz. by rewrite H in Hz.
  - pose proof (nb_digits_unorm l Hl) as Hd. rewrite Hn in Hd. cbn in Hd. lia.
Qed.

Lemma str_positive (p : positive) :
  ∃ (c : ascii) (s : string),
    Py.str (Zpos p) = String c s
    ∧ Ascii.eqb c "0" = false ∧ Ascii.eqb c "-" = false
    ∧ digits_value (String c s) 0 = Some (Zpos p).
Proof.
  unfold Py.str. cbn [Z.to_int NilEmpty.string_of_int].
  pose proof (digits_value_uint (Pos.to_uint p) 0) as Hv.
  rewrite to_uint_value in Hv.
  pose proof (Unsigned.to_uint_nonnil p) as Hnil.
  pose proof (to_uint_no_leading_zero p) as Hz.
  destruct (Pos.to_uint p) as [|l|l|l|l|l|l|l|l|l|l]; [done|by destruct (Hz l)|..];
    cbn [NilEmpty.string_of_uint] in *; by eexists _, _.
Qed.

(** [str(v)] is the decimal literal of [v]. *)
Lemma str_decimal_value (v : Z) : decimal_value (Py.str v) = Some v.
Proof.
  destruct v as [|p|p]; [reflexivity|..].
  - destruct (str_positive p) as (c & s & -> & H0 & Hm & Hv).
    unfold decimal_value, natural_value. by rewrite Hm, H0.
  - destruct (str_positive p) as (c & s & Hs & H0 & Hm & Hv).
    unfold Py.str in *. cbn [Z.to_int NilEmpty.string_of_int] in *.
    rewrite Hs. unfold decimal_value. cbn [Ascii.eqb Bool.eqb].
    unfold natural_value. rewrite H0, Hv. reflexivity.
Qed.

(** ** from_bytes gives the little-endian signed value *)

Lemma sum_scale (c : Z) (l : list Z) :
  foldr Z.add 0%Z (map (Z.mul c) l) = (c * foldr Z.add 0 l)%Z.
Proof. induction l as [|x l IH]; cbn [map foldr]; [lia|]. rewrite IH. lia. Qed.

Lemma le_unsigned_cons (b : byte) (raw : list byte) :
  le_unsigned (b :: raw) = (Z.of_N (Byte.to_N b) + 256 * le_unsigned raw)%Z.
Proof.
  unfold le_unsigned. cbn [length seq map foldr].
  rewrite <- seq_shift, map_map. f_equal.
  - unfold byte_at. cbn [nth]. lia.
  - rewrite <- sum_scale, map_map. f_equal. apply map_ext. intros i.
    unfold byte_at. cbn [nth]. rewrite Nat2Z.inj_succ, Z.pow_succ_r by lia. lia.
Qed.

Lemma le_unsigned_from_bytes (raw : list byte) :
  le_unsigned raw = Py.from_bytes_le raw.
Proof.
  induction raw as [|b raw IH]; [reflexivity|].
  by rewrite le_unsigned_cons, IH.
Qed.

Lemma int_from_bytes_le_signed (raw : list byte) :
  le_signed raw (Py.int_from_bytes raw).
Proof.
  destruct raw as [|b raw]; [reflexivity|]. unfold le_signed. split.
  - by apply int_from_bytes_range.
  - by rewrite int_from_bytes_mod, le_unsigned_from_bytes.
Qed.

(** The signed value is unique. *)
Lemma le_signed_unique (raw : list byte) (v v' : Z) :
  le_signed raw v → le_signed raw v' → v = v'.
Proof.
  destruct raw as [|b raw]; unfold le_signed; [congruence|].
  set (bits := (8 * Z.of_nat (length (b :: raw)))%Z).
  assert (0 < bits)%Z as Hpos by (unfold bits; cbn [length]; lia).
  assert (2 ^ bits = 2 * 2 ^ (bits - 1))%Z as Hp.
  { rewrite <- Z.pow_succ_r by lia. f_equal. lia. }
  intros [Hr Hm] [Hr' Hm'].
  assert (0 < 2 ^ (bits - 1))%Z as Hpp by (apply Z.pow_pos_nonneg; lia).
  pose proof (Z.div_mod v (2 ^ bits) ltac:(lia)) as Hv.
  pose proof (Z.div_mod v' (2 ^ bits) ltac:(lia)) as Hv'.
  rewrite Hm in Hv. rewrite Hm' in Hv'.
  assert (v / 2 ^ bits = v' / 2 ^ bits)%Z; [|congruence].
  pose proof (Z.mod_pos_bound v (2 ^ bits) ltac:(lia)) as Hb.
  rewrite Hm in Hb. nia.
Qed.

(** ** The format reader *)

(** Every token of a binary blob is 0x, two hexadecimal digits and a comma,
    and the two digits spell the value of the byte. *)
Lemma hex_token_shape (b : byte) :
  ∃ d1 d0 : ascii,
    hex_token b = String "0" (String "x" (String d1 (String d0 ",")))
    ∧ is_hex_digit d1 = true ∧ is_hex_digit d0 = true
    ∧ (16 * hex_value d1 + hex_value d0)%N = Byte.to_N b.
Proof. destruct b; do 2 eexists; (split; [reflexivity|]); by vm_compute. Qed.

Lemma bytes_hex_single (b : byte) : Py.bytes_hex [b] = Py.byte_hex b.
Proof. cbn [Py.bytes_hex]. apply app_empty_r. Qed.

(** The loop of the binary-blob branch, started on a byte just read: with
    fuel for every remaining byte it returns the count and the blob. *)
Lemma tflite_while_spec (rest : list byte) :
  ∀ (b : byte) (out_string : string) (size : Z) (fuel : nat),
    length rest + 2 ≤ fuel →
    tflite_while fuel rest [b] out_string size =
      ((size + 1 + Z.of_nat (length rest))%Z,
       out_string +:+ blob (map hex_token (b :: rest))).
Proof.
  induction rest as [|b' rest IH]; intros b out size fuel Hfuel.
  - destruct fuel as [|[|fuel]]; try (cbn in Hfuel; lia).
    cbn [tflite_while file_read take drop map length].
    rewrite bytes_hex_single, blob_cons. cbn [blob foldr].
    rewrite app_empty_r. unfold hex_token.
    f_equal; try lia; try (by rewrite !app_assoc_str).
  - destruct fuel as [|fuel]; [cbn in Hfuel; lia|].
    cbn [tflite_while file_read take drop].
    rewrite IH by (cbn [length] in Hfuel; lia).
    rewrite bytes_hex_single. cbn [map length].
    rewrite (blob_cons (hex_token b)). unfold hex_token at 3.
    f_equal; try lia; try (by rewrite !app_assoc_str).
Qed.

(** Reading one frame moves every later frame one index down. *)
Lemma frame_after_read (wav : Wave.Wave_read) (i : nat) :
  frame (Wave.readframes 1 wav).2 i = frame wav (S i).
Proof.
  unfold frame, Wave.readframes. cbn [snd Wave.framesize Wave.data].
  rewrite drop_drop. do 2 f_equal. lia.
Qed.

Lemma frame_first (wav : Wave.Wave_read) :
  (Wave.readframes 1 wav).1 = frame wav 0.
Proof.
  unfold frame, Wave.readframes. cbn [fst]. rewrite Nat.mul_0_l, drop_0.
  f_equal. lia.
Qed.

(** The loop of the waveform branch appends one token per frame index
    below [n], in order. *)
Lemma wav_for_spec (n : nat) :
  ∀ (wav : Wave.Wave_read) (out_string : string),
    (wav_for n wav out_string).2 =
      out_string +:+ blob (map (λ i, sample_token (frame wav i)) (seq 0 n))
    ∧ Wave.nframes (wav_for n wav out_string).1 = Wave.nframes wav.
Proof.
  induction n as [|n IH]; intros wav out.
  - cbn. by rewrite app_empty_r.
  - cbn [wav_for].
    destruct (Wave.readframes 1 wav) as [raw wav'] eqn:E.
    destruct (IH wav' (out +:+ Py.str (Py.int_from_bytes raw) +:+ ",")) as [-> ->].
    assert (raw = frame wav 0) as -> by (by rewrite <- frame_first, E).
    assert (wav' = (Wave.readframes 1 wav).2) as Hw by (by rewrite E).
    split; [|by rewrite Hw].
    cbn [seq map]. rewrite blob_cons, <- seq_shift, map_map.
    rewrite (map_ext (λ i, sample_token (frame wav (S i)))
                     (λ i, sample_token (frame wav' i)))
      by (intros; by rewrite Hw, frame_after_read).
    unfold sample_token at 2. by rewrite !app_assoc_str.
Qed.

Section Reader.

Context (Image_decode : list byte → option (list byte)).
Context (wave_parse : list byte → option Wave.Wave_read).

(** C1: for a .tflite path naming a file, the reader returns the number
    of bytes of the file as the count and, as the content blob, the
    tokens of the bytes in file order; each token is 0x, exactly two
    hexadecimal digits (spelling the byte) and a comma. *)
Theorem generate_array_binary_blob
    (input_fname : string) (bs : list byte) (w : World) :
  Py.endswith input_fname ".tflite" = true →
  files w !! input_fname = Some bs →
  generate_array Image_decode wave_parse input_fname w =
    (log (EvOpen input_fname "rb") w,
     Ok (Z.of_nat (length bs), blob (map hex_token bs)))
  ∧ ∀ b : byte, ∃ d1 d0 : ascii,
      hex_token b = String "0" (String "x" (String d1 (String d0 ",")))
      ∧ is_hex_digit d1 = true ∧ is_hex_digit d0 = true
      ∧ (16 * hex_value d1 + hex_value d0)%N = Byte.to_N b.
Proof.
  intros Hext Hfile. split; [|apply hex_token_shape].
  unfold generate_array. rewrite Hext.
  assert (is_empty input_fname = false) as Hne
    by (by eapply endswith_nonempty; [|exact Hext]).
  rewrite (bind_run_ok _ _ _ _ _ (open_rb_file _ _ _ Hne Hfile)).
  destruct bs as [|b rest]; [reflexivity|].
  cbn [file_read take drop]. rewrite take_0, drop_0.
  rewrite tflite_while_spec by (simpl; lia).
  unfold mret, M_ret. do 3 f_equal. cbn [length]. lia.
Qed.

Lemma wave_open_file (path : string) (bs : list byte)
    (wav : Wave.Wave_read) (w : World) :
  is_empty path = false →
  files w !! path = Some bs → wave_parse bs = Some wav →
  wave_open wave_parse path w = (log (EvOpen path "rb") w, Ok wav).
Proof.
  intros Hne Hfile Hwav. unfold wave_open.
  rewrite (bind_run_ok _ _ _ _ _ (open_rb_file _ _ _ Hne Hfile)).
  by rewrite Hwav.
Qed.

(** The tokens of the first [n] frames of a waveform. *)
Lemma sample_tokens_lookup (wav : Wave.Wave_read) (n i : nat) :
  i < n →
  map (λ i, sample_token (frame wav i)) (seq 0 n) !! i =
    Some (Py.str (Py.int_from_bytes (frame wav i)) +:+ ",").
Proof.
  intros Hi. change (map ?f ?l) with (f <$> l).
  rewrite list_lookup_fmap, lookup_seq_lt by done. reflexivity.
Qed.

(** C2: for a .wav path naming a file that the waveform reader accepts,
    the reader returns the declared frame count as the count, and the
    content blob is made of one token per frame index below that count, in
    order. The token at index [i] is a decimal literal followed by a comma,
    and the value of that literal is the little-endian signed value of the
    raw bytes of frame [i]: it lies in the two's complement range of the
    width of the frame and agrees, modulo two to that width, with the sum of
    the bytes weighted by 256 to their index. *)
Theorem generate_array_waveform
    (input_fname : string) (bs : list byte) (wav : Wave.Wave_read) (w : World) :
  Py.endswith input_fname ".wav" = true →
  files w !! input_fname = Some bs →
  wave_parse bs = Some wav →
  generate_array Image_decode wave_parse input_fname w =
    (log (EvOpen input_fname "rb") w,
     Ok (Z.of_nat (Wave.nframes wav),
         blob (map (λ i, sample_token (frame wav i)) (seq 0 (Wave.nframes wav)))))
  ∧ length (map (λ i, sample_token (frame wav i)) (seq 0 (Wave.nframes wav)))
    = Wave.nframes wav
  ∧ ∀ i, i < Wave.nframes wav →
      ∃ (digits : string) (v : Z),
        map (λ i, sample_token (frame wav i)) (seq 0 (Wave.nframes wav)) !! i
        = Some (digits +:+ ",")
        ∧ decimal_value digits = Some v
        ∧ le_signed (frame wav i) v.
Proof.
  intros Hext Hfile Hwav. split; [|split].
  - unfold generate_array.
    rewrite (endswith_wav_not_tflite _ Hext), (endswith_wav_not_bmp _ Hext), Hext.
    assert (is_empty input_fname = false) as Hne
      by (by eapply endswith_nonempty; [|exact Hext]).
    rewrite (bind_run_ok _ _ _ _ _ (wave_open_file _ _ _ _ Hne Hfile Hwav)).
    unfold Wave.getnframes at 1. rewrite Nat2Z.id.
    destruct (wav_for_spec (Wave.nframes wav) wav EmptyString) as [Hout Hn].
    destruct (wav_for (Wave.nframes wav) wav EmptyString) as [wav' out].
    cbn [fst snd] in Hout, Hn. rewrite Hout, app_empty_l.
    unfold Wave.close, Wave.getnframes. by rewrite Hn.
  - by rewrite length_map, length_seq.
  - intros i Hi.
    exists (Py.str (Py.int_from_bytes (frame wav i))), (Py.int_from_bytes (frame wav i)).
    split; [by apply sample_tokens_lookup|].
    split; [apply str_decimal_value|apply int_from_bytes_le_signed].
Qed.

End Reader.

Lemma generate_array_binary_blob_witness :
  Py.endswith "model.tflite" ".tflite" = true
  ∧ files scenario_world !! "model.tflite" = Some [x01; x02]
  ∧ (generate_array no_image raw_pcm16 "model.tflite" scenario_world =
       (log (EvOpen "model.tflite" "rb") scenario_world, Ok (2%Z, "0x01,0x02,"))
     ∧ ∀ b : byte, ∃ d1 d0 : ascii,
         hex_token b = String "0" (String "x" (String d1 (String d0 ",")))
         ∧ is_hex_digit d1 = true ∧ is_hex_digit d0 = true
         ∧ (16 * hex_value d1 + hex_value d0)%N = Byte.to_N b).
Proof.
  split; [reflexivity|]. split; [reflexivity|].
  apply (generate_array_binary_blob no_image raw_pcm16
           "model.tflite" [x01; x02] scenario_world); reflexivity.
Defined.

Lemma generate_array_waveform_witness :
  Py.endswith "sound.wav" ".wav" = true
  ∧ files scenario_world !! "sound.wav" = Some [xff; xff; x00; x00; xff; x7f]
  ∧ raw_pcm16 [xff; xff; x00; x00; xff; x7f]
    = Some (Wave.mkWave 3 2 [xff; xff; x00; x00; xff; x7f])
  ∧ (generate_array no_image raw_pcm16 "sound.wav" scenario_world =
       (log (EvOpen "sound.wav" "rb") scenario_world, Ok (3%Z, "-1,0,32767,"))
     ∧ length ["-1,"; "0,"; "32767,"] = 3
     ∧ ∀ i, i < 3 →
         ∃ (digits : string) (v : Z),
           ["-1,"; "0,"; "32767,"] !! i = Some (digits +:+ ",")
           ∧ decimal_value digits = Some v
           ∧ le_signed (frame (Wave.mkWave 3 2 [xff; xff; x00; x00; xff; x7f]) i) v)
  ∧ decimal_value "-1" = Some (-1)%Z ∧ le_signed [xff; xff] (-1)
  ∧ decimal_value "0" = Some 0%Z ∧ le_signed [x00; x00] 0
  ∧ decimal_value "32767" = Some 32767%Z ∧ le_signed [xff; x7f] 32767.
Proof.
  split; [reflexivity|]. split; [reflexivity|]. split; [reflexivity|].
  split.
  - apply (generate_array_waveform no_image raw_pcm16 "sound.wav"
             [xff; xff; x00; x00; xff; x7f]
             (Wave.mkWave 3 2 [xff; xff; x00; x00; xff; x7f])
             scenario_world); reflexivity.
  - repeat split; try reflexivity; vm_compute; congruence.
Defined.

Example generate_array_sound :
  generate_array no_image raw_pcm16 "sound.wav" scenario_world =
    (log (EvOpen "sound.wav" "rb") scenario_world, Ok (3%Z, "-1,0,32767,")).
Proof. reflexivity. Qed.

(** ** The file system *)

Lemma list_byte_of_string_app (s t : string) :
  String.list_byte_of_string (s +:+ t) =
  String.list_byte_of_string s ++ String.list_byte_of_string t.
Proof.
  induction s as [|c s IH]; [reflexivity|].
  rewrite app_cons.
  change (String.list_byte_of_string (String c ?x))
    with (byte_of_ascii c :: String.list_byte_of_string x).
  by rewrite IH.
Qed.

(** Writing to a file just created or written: the text is appended. *)
Lemma write_appends (h text : string) (c : list byte)
    (f : gmap string (list byte)) (w : World) :
  Os.write h text (set_files (<[h := c]> f) w) =
    (set_files (<[h := c ++ String.list_byte_of_string text]> f) w, Ok tt).
Proof.
  unfold Os.write, set_files. cbn [files dirs trace].
  by rewrite lookup_insert_eq, insert_insert_eq.
Qed.

(** Creating directories touches neither the files nor the trace, and
    removes no directory. *)
Lemma mkdir_frame (path : string) (w w' : World) (r : result unit) :
  Os.mkdir path w = (w', r) →
  files w' = files w ∧ trace w' = trace w ∧ dirs w ⊆ dirs w'.
Proof.
  unfold Os.mkdir. intros H.
  repeat case_match; simplify_eq; cbn; set_solver.
Qed.

Lemma mkdir_exist_ok_frame (name : string) (w w' : World) (r : result unit) :
  Os.mkdir_exist_ok name w = (w', r) →
  files w' = files w ∧ trace w' = trace w ∧ dirs w ⊆ dirs w'.
Proof.
  unfold Os.mkdir_exist_ok, try_except. intros H.
  destruct (Os.mkdir name w) as [w1 [[]|e]] eqn:E;
    apply mkdir_frame in E; repeat case_match; by simplify_eq.
Qed.

Lemma makedirs_go_frame (fuel : nat) :
  ∀ (name : string) (w w' : World) (r : result unit),
    Os.makedirs_go fuel name w = (w', r) →
    files w' = files w ∧ trace w' = trace w ∧ dirs w ⊆ dirs w'.
Proof.
  induction fuel as [|fuel IH]; intros name w w' r H.
  - cbn in H. unfold raise in H. by simplify_eq.
  - cbn [Os.makedirs_go] in H.
    destruct (OsPath.split name) as [head tail].
    destruct (if is_empty tail then OsPath.split head else (head, tail))
      as [head' tail'].
    destruct (negb (is_empty head') && negb (is_empty tail')
              && negb (Os.path_exists w head')); [|by eapply mkdir_exist_ok_frame].
    rewrite bind_run in H. unfold try_except in H.
    destruct (Os.makedirs_go fuel head' w) as [w1 [[]|e]] eqn:E; apply IH in E.
    + destruct (String.eqb tail' ".").
      * unfold mret, M_ret in H. by simplify_eq.
      * apply mkdir_exist_ok_frame in H.
        destruct E as (E1 & E2 & E3), H as (H1 & H2 & H3).
        repeat split; [congruence|congruence|by etrans].
    + destruct e; unfold raise, mret, M_ret in H; try by simplify_eq.
      destruct (String.eqb tail' ".").
      * by simplify_eq.
      * apply mkdir_exist_ok_frame in H.
        destruct E as (E1 & E2 & E3), H as (H1 & H2 & H3).
        repeat split; [congruence|congruence|by etrans].
Qed.

Lemma makedirs_frame (name : string) (w w' : World) (r : result unit) :
  Os.makedirs name w = (w', r) →
  files w' = files w ∧ trace w' = trace w ∧ dirs w ⊆ dirs w'.
Proof. apply makedirs_go_frame. Qed.

(** The empty name cannot be created: [os.makedirs('')] raises. *)
Lemma makedirs_empty (w : World) :
  Os.makedirs EmptyString w = (w, Raise (FileNotFoundError EmptyString)).
Proof. reflexivity. Qed.

(** A bare file name has the empty directory name. *)
Lemma dirname_bare (p : string) :
  contains_char "/" p = false → OsPath.dirname p = EmptyString.
Proof.
  intros H. unfold OsPath.dirname.
  assert (OsPath.rcut p = (EmptyString, p)) as ->; [|reflexivity].
  induction p as [|c p IH]; [reflexivity|].
  cbn in H. apply orb_false_iff in H as [Hc Hp].
  cbn [OsPath.rcut]. by rewrite (IH Hp), Hc.
Qed.

Lemma mkdir_exist_ok_isdir (name : string) (w w' : World) :
  Os.mkdir_exist_ok name w = (w', Ok tt) → Os.isdir w' name = true.
Proof.
  unfold Os.mkdir_exist_ok, try_except, Os.mkdir. intros H.
  destruct (is_empty name) eqn:Hne.
  - cbn in H. destruct (Os.isdir w name) eqn:Hd; cbn in H; by simplify_eq.
  - destruct (Os.path_exists w name).
    + cbn in H. destruct (Os.isdir w name) eqn:Hd; cbn in H; by simplify_eq.
    + destruct (Os.parent_error w name) as [e|].
      * destruct (is_OSError e); [|done].
        destruct (Os.isdir w name) eqn:Hd; cbn in H; by simplify_eq.
      * simplify_eq. unfold Os.isdir, set_dirs. cbn [dirs]. rewrite Hne.
        cbn [negb andb]. apply orb_true_iff. left.
        apply bool_decide_eq_true. set_solver.
Qed.

(** After [os.makedirs(name, exist_ok=True)] returns, [name] is a
    directory; the one exception is CPython's early return on a name whose
    last segment is the dot, which this model of paths does not resolve. *)
Lemma makedirs_ok_isdir (name : string) (w w' : World) :
  (let '(head, tail) := OsPath.split name in
   let '(head, tail) :=
     if is_empty tail then OsPath.split head else (head, tail) in
   tail ≠ ".") →
  Os.makedirs name w = (w', Ok tt) → Os.isdir w' name = true.
Proof.
  unfold Os.makedirs. cbn [Os.makedirs_go].
  destruct (OsPath.split name) as [head tail].
  destruct (if is_empty tail then OsPath.split head else (head, tail))
    as [head' tail'].
  intros Hdot H.
  destruct (negb (is_empty head') && negb (is_empty tail')
            && negb (Os.path_exists w head')); [|by eapply mkdir_exist_ok_isdir].
  rewrite bind_run in H.
  destruct (try_except _ _ w) as [w1 [[]|e]]; [|done].
  apply String.eqb_neq in Hdot. rewrite Hdot in H.
  by eapply mkdir_exist_ok_isdir.
Qed.

(** ** The artifact writer *)

Lemma open_w_ok (path : string) (w : World) :
  Os.isdir w path = false → Os.parent_error w path = None →
  Os.open_w path w =
    (set_files (<[path := []]> (files w)) (log (EvOpen path "w") w), Ok path).
Proof.
  intros Hd Hp. unfold Os.open_w.
  change (Os.isdir (log _ w) path) with (Os.isdir w path).
  change (Os.parent_error (log _ w) path) with (Os.parent_error w path).
  by rewrite Hd, Hp.
Qed.

Lemma endswith_cc_not_h (s : string) :
  Py.endswith s ".cc" = true → Py.endswith s ".h" = false.
Proof.
  intros H. destruct (Py.endswith s ".h") eqn:E; [|done].
  apply endswith_last_char in H; [|done].
  apply endswith_last_char in E; [|done]. rewrite H in E. discriminate.
Qed.

(** On a path ending in .cc, once the parent directories are there and the
    file can be opened, the writer leaves at that path the include
    directive, the array statement and the size statement, in this order.
    The include path is the part of the output path after the last
    genfiles/ marker with every occurrence of .cc replaced by .h. *)
Lemma generate_file_definition
    (out_fname array_name array_type array_contents : string) (size : Z)
    (w w1 : World) :
  Py.endswith out_fname ".cc" = true →
  Os.makedirs (OsPath.dirname out_fname) w = (w1, Ok tt) →
  Os.isdir w1 out_fname = false → Os.parent_error w1 out_fname = None →
  generate_file out_fname array_name array_type array_contents size w =
    (set_files
       (<[out_fname :=
            String.list_byte_of_string
              (definition_text
                 (Py.replace (Py.final (Py.split out_fname "genfiles/")) ".cc" ".h")
                 array_type array_name array_contents size)]> (files w1))
       (log (EvOpen out_fname "w") w1),
     Ok tt).
Proof.
  intros Hext Hmk Hd Hp. unfold generate_file.
  rewrite (bind_run_ok _ _ _ _ _ Hmk), Hext.
  rewrite (bind_run_ok _ _ _ _ _ (open_w_ok _ _ Hd Hp)).
  repeat (erewrite bind_run_ok; [|apply write_appends]).
  unfold Os.close, mret, M_ret. unfold definition_text.
  by rewrite !list_byte_of_string_app, !app_nil_l, <- !app_assoc.
Qed.

(** On a path ending in .h, under the same conditions, the writer leaves
    the two extern declarations. *)
Lemma generate_file_declaration
    (out_fname array_name array_type array_contents : string) (size : Z)
    (w w1 : World) :
  Py.endswith out_fname ".h" = true →
  Os.makedirs (OsPath.dirname out_fname) w = (w1, Ok tt) →
  Os.isdir w1 out_fname = false → Os.parent_error w1 out_fname = None →
  generate_file out_fname array_name array_type array_contents size w =
    (set_files
       (<[out_fname :=
            String.list_byte_of_string (declaration_text array_type array_name)]>
          (files w1))
       (log (EvOpen out_fname "w") w1),
     Ok tt).
Proof.
  intros Hext Hmk Hd Hp. unfold generate_file.
  rewrite (bind_run_ok _ _ _ _ _ Hmk).
  destruct (Py.endswith out_fname ".cc") eqn:Hcc;
    [apply endswith_cc_not_h in Hcc; congruence|].
  rewrite Hext.
  rewrite (bind_run_ok _ _ _ _ _ (open_w_ok _ _ Hd Hp)).
  repeat (erewrite bind_run_ok; [|apply write_appends]).
  unfold Os.close, mret, M_ret. unfold declaration_text.
  by rewrite !list_byte_of_string_app, !app_nil_l, <- !app_assoc.
Qed.

(** C10: for an output path that ends in neither .cc nor .h and whose
    parent directory can be created, the writer raises the
    invalid-extension error in the world that creating the directories
    left behind: the directories exist when the error is raised, and
    nothing else has changed. *)
Theorem generate_file_invalid_extension_after_makedirs
    (out_fname array_name array_type array_contents : string) (size : Z)
    (w w' : World) :
  Py.endswith out_fname ".cc" = false →
  Py.endswith out_fname ".h" = false →
  Os.makedirs (OsPath.dirname out_fname) w = (w', Ok tt) →
  generate_file out_fname array_name array_type array_contents size w =
    (w', Raise (ValueError "generated file must be end with .cc or .h"))
  ∧ files w' = files w ∧ trace w' = trace w ∧ dirs w ⊆ dirs w'.
Proof.
  intros Hcc Hh Hmk. split; [|by eapply makedirs_frame].
  unfold generate_file. by rewrite (bind_run_ok _ _ _ _ _ Hmk), Hcc, Hh.
Qed.

Lemma generate_file_invalid_extension_after_makedirs_witness :
  Py.endswith "newdir/sub/m.txt" ".cc" = false
  ∧ Py.endswith "newdir/sub/m.txt" ".h" = false
  ∧ Os.makedirs (OsPath.dirname "newdir/sub/m.txt") empty_world =
      (mkWorld ∅ {[ "newdir"; "newdir/sub" ]} [], Ok tt)
  ∧ (generate_file "newdir/sub/m.txt" "g_m" "short" "1," 1 empty_world =
       (mkWorld ∅ {[ "newdir"; "newdir/sub" ]} [],
        Raise (ValueError "generated file must be end with .cc or .h"))
     ∧ files (mkWorld ∅ {[ "newdir"; "newdir/sub" ]} []) = files empty_world
     ∧ trace (mkWorld ∅ {[ "newdir"; "newdir/sub" ]} []) = trace empty_world
     ∧ dirs empty_world ⊆ dirs (mkWorld ∅ {[ "newdir"; "newdir/sub" ]} [])).
Proof.
  split; [reflexivity|]. split; [reflexivity|].
  assert (Os.makedirs (OsPath.dirname "newdir/sub/m.txt") empty_world =
            (mkWorld ∅ {[ "newdir"; "newdir/sub" ]} [], Ok tt)) as Hmk
    by (vm_compute; reflexivity).
  split; [exact Hmk|].
  apply (generate_file_invalid_extension_after_makedirs
           "newdir/sub/m.txt" "g_m" "short" "1," 1 empty_world
           (mkWorld ∅ {[ "newdir"; "newdir/sub" ]} []));
    [reflexivity|reflexivity|exact Hmk].
Defined.

(** An output path without a directory part: the writer asks for the
    directory with the empty name to be created, which fails, so nothing
    is opened or written. *)
Lemma generate_file_bare_name
    (out_fname array_name array_type array_contents : string) (size : Z)
    (w : World) :
  contains_char "/" out_fname = false →
  generate_file out_fname array_name array_type array_contents size w =
    (w, Raise (FileNotFoundError EmptyString)).
Proof.
  intros H. unfold generate_file. rewrite (dirname_bare _ H).
  by rewrite (bind_run_raise _ _ _ _ _ (makedirs_empty w)).
Qed.

(** C4: on the path build.cc.d/model_model_data.cc, which directory mode
    produces for the output directory build.cc.d, the include directive
    written names build.h.d/model_model_data.h: the replacement hits the
    directory name too, where swapping the suffix gives
    build.cc.d/model_model_data.h, the header that is written next to it. *)
Theorem generate_file_include_replaces_every_cc :
  let w' := (main no_image raw_pcm16
               (mkArgs "build.cc.d" ["model.tflite"]) scenario_world).1 in
  files w' !! "build.cc.d/model_model_data.cc" =
    Some (String.list_byte_of_string
            (definition_text "build.h.d/model_model_data.h"
               "unsigned char" "g_model_model_data" "0x01,0x02," 2))
  ∧ spec_include_path "build.cc.d/model_model_data.cc"
    = "build.cc.d/model_model_data.h"
  ∧ files w' !! "build.cc.d/model_model_data.h" =
    Some (String.list_byte_of_string
            (declaration_text "unsigned char" "g_model_model_data"))
  ∧ files w' !! "build.h.d/model_model_data.h" = None.
Proof. vm_compute. repeat split; reflexivity. Qed.

(** Where the kept part of the path holds .cc at its end only, the include
    path is the one the specification describes. *)
Example generate_file_include_scenario :
  let w' := (main no_image raw_pcm16
               (mkArgs "root/genfiles/out" ["model.tflite"]) scenario_world).1 in
  files w' !! "root/genfiles/out/model_model_data.cc" =
    Some (String.list_byte_of_string
            (definition_text "out/model_model_data.h"
               "unsigned char" "g_model_model_data" "0x01,0x02," 2))
  ∧ spec_include_path "root/genfiles/out/model_model_data.cc"
    = "out/model_model_data.h".
Proof. vm_compute. repeat split; reflexivity. Qed.

(** ** The two modes of main *)

Section Main.

Context (Image_decode : list byte → option (list byte)).
Context (wave_parse : list byte → option Wave.Wave_read).

(** C9: when the output target ends in .cc or .h and the number of inputs
    is not one, main raises the assertion error in the world it started
    in: no input has been opened, nothing has been created or written. *)
Theorem main_single_file_input_count (args : Namespace) (w : World) :
  Py.endswith (output args) ".cc" || Py.endswith (output args) ".h" = true →
  length (inputs args) ≠ 1 →
  main Image_decode wave_parse args w = (w, Raise AssertionError).
Proof.
  intros Hout Hlen. unfold main. rewrite Hout.
  apply Nat.eqb_neq in Hlen. by rewrite bind_run, Hlen.
Qed.

End Main.

Lemma main_single_file_input_count_witness :
  Py.endswith "foo.cc" ".cc" || Py.endswith "foo.cc" ".h" = true
  ∧ length ["model.tflite"; "sound.wav"] ≠ 1
  ∧ main no_image raw_pcm16 (mkArgs "foo.cc" ["model.tflite"; "sound.wav"])
      scenario_world = (scenario_world, Raise AssertionError).
Proof.
  split; [reflexivity|]. split; [cbn; lia|].
  apply (main_single_file_input_count no_image raw_pcm16
           (mkArgs "foo.cc" ["model.tflite"; "sound.wav"]) scenario_world);
    [reflexivity|cbn; lia].
Defined.

(** C6: with the output custom.h and the one input sound.wav holding the
    samples -1, 0 and 32767, main reads the input and then fails in the
    writer: creating the directory with the empty name raises
    FileNotFoundError, and no custom.h exists afterwards. *)
Theorem main_custom_h_fails :
  main no_image raw_pcm16 (mkArgs "custom.h" ["sound.wav"]) scenario_world =
    (log (EvOpen "sound.wav" "rb") scenario_world,
     Raise (FileNotFoundError EmptyString))
  ∧ files (main no_image raw_pcm16 (mkArgs "custom.h" ["sound.wav"])
             scenario_world).1 !! "custom.h" = None
  ∧ OsPath.dirname "custom.h" = EmptyString.
Proof. vm_compute. repeat split; reflexivity. Qed.

(** With a directory part in the output path the same run succeeds and
    writes the declarations only. *)
Example main_custom_h_in_directory :
  let w' := (main no_image raw_pcm16
               (mkArgs "gen/custom.h" ["sound.wav"]) scenario_world) in
  w'.2 = Ok tt
  ∧ files w'.1 !! "gen/custom.h" =
    Some (String.list_byte_of_string
            (declaration_text "short" "g_sound_audio_data"))
  ∧ opened_for_writing w'.1 = ["gen/custom.h"]
  ∧ dom (files w'.1) = dom (files scenario_world) ∪ {[ "gen/custom.h" ]}.
Proof. vm_compute. repeat split; reflexivity. Qed.

(** ** Deduplication of the inputs *)

Lemma dict_setitem_keys (d : list (string * unit)) (k : string) :
  Py.dict_keys (Py.dict_setitem d k tt) =
  if decide (k ∈ Py.dict_keys d) then Py.dict_keys d else Py.dict_keys d ++ [k].
Proof.
  unfold Py.dict_setitem, Py.dict_keys.
  destruct (existsb (String.eqb k) (map fst d)) eqn:E.
  - apply existsb_exists in E as (x & Hin & Hx). apply String.eqb_eq in Hx. subst x.
    rewrite decide_True by (by apply list_elem_of_In).
    rewrite map_map. apply map_ext. intros [k' []]. cbn. by destruct (String.eqb k' k).
  - rewrite decide_False.
    + by rewrite map_app.
    + intros Hin. apply list_elem_of_In in Hin.
      assert (existsb (String.eqb k) (map fst d) = true); [|congruence].
      apply existsb_exists. exists k. split; [done|apply String.eqb_refl].
Qed.

Lemma dict_fromkeys_go (l : list string) :
  ∀ d : list (string * unit),
    Py.dict_keys (fold_left (λ d k, Py.dict_setitem d k tt) l d) =
    Py.dict_keys d ++ filter (λ x, x ∉ Py.dict_keys d) (first_occurrences l).
Proof.
  induction l as [|x l IH]; intros d.
  - cbn. by rewrite app_nil_r.
  - cbn [fold_left first_occurrences]. rewrite IH, dict_setitem_keys.
    destruct (decide (x ∈ Py.dict_keys d)) as [Hin|Hnin].
    + rewrite filter_cons_False by (intros H; by apply H).
      rewrite list_filter_filter. f_equal. apply list_filter_iff.
      intros y. split; [|tauto]. intros Hy. split; [done|]. intros ->. done.
    + rewrite filter_cons_True by done. rewrite <- app_assoc. cbn [app]. do 2 f_equal.
      rewrite list_filter_filter. apply list_filter_iff.
      intros y. rewrite not_elem_of_app, list_elem_of_singleton. tauto.
Qed.

Lemma dict_fromkeys_first_occurrences (l : list string) :
  Py.dict_keys (Py.dict_fromkeys l) = first_occurrences l.
Proof.
  unfold Py.dict_fromkeys. rewrite dict_fromkeys_go. cbn [Py.dict_keys map app].
  induction (first_occurrences l) as [|x l' IH]; [done|].
  rewrite filter_cons_True by apply not_elem_of_nil. by rewrite IH.
Qed.

Lemma first_occurrences_elem_of (l : list string) (x : string) :
  x ∈ first_occurrences l ↔ x ∈ l.
Proof.
  induction l as [|y l IH]; [done|]. cbn [first_occurrences].
  rewrite !elem_of_cons, list_elem_of_filter, IH.
  destruct (decide (x = y)); intuition congruence.
Qed.

Lemma first_occurrences_NoDup (l : list string) : NoDup (first_occurrences l).
Proof.
  induction l as [|y l IH]; [constructor|]. cbn [first_occurrences].
  constructor.
  - rewrite list_elem_of_filter. intros [Hne _]. by apply Hne.
  - by apply NoDup_filter.
Qed.

Lemma first_occurrences_aba (a b : string) :
  a ≠ b → first_occurrences [a; b; a] = [a; b].
Proof.
  intros Hab. cbn [first_occurrences].
  rewrite filter_nil, (filter_cons_True (λ y, y ≠ b) a) by done.
  rewrite filter_nil, (filter_cons_True (λ y, y ≠ a) b) by congruence.
  rewrite (filter_cons_False (λ y, y ≠ a) a) by (intros H; by apply H).
  by rewrite filter_nil.
Qed.

(** ** Events of the writer and of the reader *)






Lemma open_rb_world (path : string) (w w' : World) (r : result (list byte)) :
  Os.open_rb path w = (w', r) → w' = log (EvOpen path "rb") w.
Proof. unfold Os.open_rb. intros H. repeat case_match; by simplify_eq. Qed.


Lemma ret_bind {A B : Type} (a : A) (f : A → M B) (w : World) :
  (mret a ≫= f) w = f a w.
Proof. reflexivity. Qed.

Lemma lift_bind {A B : Type} (r : result A) (f : A → M B) (w : World) :
  (lift r ≫= f) w = match r with Ok a => f a w | Raise e => (w, Raise e) end.
Proof. reflexivity. Qed.

Lemma print_bind {B : Type} (line : string) (f : unit → M B) (w : World) :
  (Os.print line ≫= f) w = f tt (log (EvPrint line) w).
Proof. reflexivity. Qed.

Section MainTrace.

Context (Image_decode : list byte → option (list byte)).
Context (wave_parse : list byte → option Wave.Wave_read).

(** The reader changes nothing; a successful call records that the input
    was opened. *)
Lemma generate_array_world_ok
    (input_fname : string) (w w' : World) (r : Z * string) :
  generate_array Image_decode wave_parse input_fname w = (w', Ok r) →
  w' = log (EvOpen input_fname "rb") w.
Proof.
  unfold generate_array, Image_open_tobytes, wave_open. intros H.
  destruct (Py.endswith input_fname ".tflite");
    [|destruct (Py.endswith input_fname ".bmp");
      [|destruct (Py.endswith input_fname ".wav"); [|done]]].
  - rewrite bind_run in H.
    destruct (Os.open_rb input_fname w) as [w1 [bs|e]] eqn:E; [|done].
    apply open_rb_world in E. destruct (file_read 1 bs).
    unfold mret, M_ret in H. by simplify_eq.
  - rewrite !bind_run in H.
    destruct (Os.open_rb input_fname w) as [w1 [bs|e]] eqn:E; [|done].
    apply open_rb_world in E. destruct (Image_decode bs); [|done].
    unfold mret, M_ret in H. by simplify_eq.
  - rewrite !bind_run in H.
    destruct (Os.open_rb input_fname w) as [w1 [bs|e]] eqn:E; [|done].
    apply open_rb_world in E. destruct (wave_parse bs) as [wav|]; [|done].
    unfold mret at 1, M_ret in H. destruct (wav_for _ _ _).
    unfold mret, M_ret in H. by simplify_eq.
Qed.

Lemma suffix_step (input_file base : string) :
  (if Py.endswith input_file ".tflite" then mret (base +:+ "_model_data")
   else if Py.endswith input_file ".bmp" then mret (base +:+ "_image_data")
   else if Py.endswith input_file ".wav" then mret (base +:+ "_audio_data")
   else raise (ValueError "input file must be .tflite, .bmp or .wav"))
  = match kind_of_path input_file with
    | Some k => mret (base +:+ kind_suffix k) : M string
    | None => raise (ValueError "input file must be .tflite, .bmp or .wav")
    end.
Proof. unfold kind_of_path. by repeat case_match. Qed.





(** A repeated input is processed as if it had been given once. *)
Lemma main_directory_repeated_input (out a b : string) (w : World) :
  a ≠ b →
  main Image_decode wave_parse (mkArgs out [a; b; a]) w =
  main Image_decode wave_parse (mkArgs out [a; b]) w.
Proof.
  intros Hab. unfold main. cbn [output inputs].
  destruct (Py.endswith out ".cc" || Py.endswith out ".h") eqn:E.
  - reflexivity.
  - rewrite !dict_fromkeys_first_occurrences, first_occurrences_aba by done.
    cbn [first_occurrences]. rewrite filter_nil.
    rewrite (filter_cons_True (λ y, y ≠ a) b) by congruence.
    by rewrite filter_nil.
Qed.


End MainTrace.


Example main_directory_mode_stdout :
  stdout (main no_image raw_pcm16
            (mkArgs "out/" ["model.tflite"; "dir/other.tflite"; "model.tflite"])
            scenario_world).1 =
    ["out/model_model_data.cc"; "out/dir/other_model_data.cc"].
Proof. vm_compute. reflexivity. Qed.



Example main_directory_mode_dedup_scenario :
  opened_for_writing
    (main no_image raw_pcm16
       (mkArgs "out/" ["model.tflite"; "sound.wav"; "model.tflite"])
       scenario_world).1 =
    ["out/model_model_data.cc"; "out/model_model_data.h";
     "out/sound_audio_data.cc"; "out/sound_audio_data.h"].
Proof. vm_compute. reflexivity. Qed.

(** ** The include path when .cc is at the end only *)

Lemma str_length_app (s t : string) :
  String.length (s +:+ t) = String.length s + String.length t.
Proof. induction s as [|c s IH]; [done|]. rewrite app_cons. cbn. by rewrite IH. Qed.

Lemma prefix_app_l (p s t : string) :
  String.length p ≤ String.length s →
  String.prefix p (s +:+ t) = String.prefix p s.
Proof.
  revert s. induction p as [|a p IH]; intros s Hlen.
  - by destruct s, t.
  - destruct s as [|b s]; [cbn in Hlen; lia|].
    rewrite app_cons. cbn [String.prefix].
    destruct (ascii_dec a b); [|done]. apply IH. cbn in Hlen. lia.
Qed.

Lemma replace_suffix_only (stem : string) :
  occurs ".cc" (stem +:+ ".c") = false →
  Py.replace (stem +:+ ".cc") ".cc" ".h" = stem +:+ ".h".
Proof.
  unfold Py.replace. induction stem as [|c stem IH]; intros H; [reflexivity|].
  rewrite !app_cons in *. cbn [occurs] in H.
  apply orb_false_iff in H as [Hp Ho].
  assert (String.prefix ".cc" (String c (stem +:+ ".cc")) = false) as Hpre.
  { replace (String c (stem +:+ ".cc")) with (String c (stem +:+ ".c") +:+ "c")
      by (by rewrite app_cons, app_assoc_str).
    rewrite prefix_app_l; [exact Hp|].
    cbn [String.length]. rewrite str_length_app. cbn. lia. }
  cbn [Py.replace_go]. by rewrite Hpre, IH.
Qed.

Lemma eqb_length (s t : string) :
  String.length s ≠ String.length t → String.eqb s t = false.
Proof. intros H. apply String.eqb_neq. by intros ->. Qed.

Lemma without_suffix_app (stem suffix : string) :
  without_suffix (stem +:+ suffix) suffix = Some stem.
Proof.
  induction stem as [|c stem IH].
  - rewrite app_empty_l. destruct suffix; cbn; by rewrite ?String.eqb_refl, ?Ascii.eqb_refl.
  - rewrite app_cons. cbn [without_suffix].
    rewrite eqb_length by (cbn; rewrite str_length_app; lia).
    by rewrite IH.
Qed.

(** Where the part of the output path kept for the include directive holds
    .cc at its end only, replacing every occurrence swaps the suffix. *)
Lemma include_path_suffix_only (out_fname stem : string) :
  Py.final (Py.split out_fname "genfiles/") = stem +:+ ".cc" →
  occurs ".cc" (stem +:+ ".c") = false →
  Py.replace (Py.final (Py.split out_fname "genfiles/")) ".cc" ".h"
  = spec_include_path out_fname.
Proof.
  intros Hkept Hocc. unfold spec_include_path.
  by rewrite Hkept, without_suffix_app, replace_suffix_only.
Qed.

(** ** Fuel of makedirs *)

Lemma rcut_app (p : string) : (OsPath.rcut p).1 +:+ (OsPath.rcut p).2 = p.
Proof.
  induction p as [|c p IH]; [done|]. cbn [OsPath.rcut].
  destruct (OsPath.rcut p) as [h t]. cbn [fst snd] in IH.
  destruct h as [|x h].
  - rewrite app_empty_l in IH. subst t. by destruct (Ascii.eqb c "/").
  - cbn [fst snd]. by rewrite app_cons, IH.
Qed.

Lemma rstrip_sep_length (s : string) :
  String.length (OsPath.rstrip_sep s) ≤ String.length s.
Proof.
  induction s as [|c s IH]; [done|]. cbn [OsPath.rstrip_sep].
  destruct (OsPath.rstrip_sep s); [destruct (Ascii.eqb c "/")|]; cbn in *; lia.
Qed.

Lemma split_length (p : string) :
  String.length (OsPath.split p).1 + String.length (OsPath.split p).2
  ≤ String.length p.
Proof.
  unfold OsPath.split. pose proof (rcut_app p) as H.
  destruct (OsPath.rcut p) as [h t]. cbn [fst snd] in *.
  rewrite <- H, str_length_app. unfold OsPath.strip_head.
  pose proof (rstrip_sep_length h). case_match; lia.
Qed.

Lemma mkdir_not_recursion (path : string) (w w' : World) :
  Os.mkdir path w ≠ (w', Raise RecursionError).
Proof.
  unfold Os.mkdir, Os.parent_error. repeat case_match; by simplify_eq.
Qed.

Lemma mkdir_exist_ok_not_recursion (name : string) (w w' : World) :
  Os.mkdir_exist_ok name w ≠ (w', Raise RecursionError).
Proof.
  unfold Os.mkdir_exist_ok, try_except. intros H.
  destruct (Os.mkdir name w) as [w1 [[]|e]] eqn:E; [done|].
  destruct e; cbn in H; repeat case_match; simplify_eq.
  by apply mkdir_not_recursion in E.
Qed.

(** The fuel given by [os.makedirs] is never used up. *)
Lemma makedirs_go_fuel (fuel : nat) :
  ∀ (name : string) (w w' : World),
    String.length name < fuel →
    Os.makedirs_go fuel name w ≠ (w', Raise RecursionError).
Proof.
  induction fuel as [|fuel IH]; intros name w w' Hlen; [lia|].
  cbn [Os.makedirs_go].
  pose proof (split_length name) as Hs.
  destruct (OsPath.split name) as [head tail]. cbn [fst snd] in Hs.
  assert (∀ head' tail',
            (if is_empty tail then OsPath.split head else (head, tail))
              = (head', tail') →
            is_empty tail' = false → String.length head' < fuel) as Hhead.
  { intros head' tail' E Ht. destruct (is_empty tail).
    - pose proof (split_length head) as Hs'. rewrite E in Hs'. cbn [fst snd] in Hs'.
      destruct tail'; [done|]. cbn in Hs'. lia.
    - simplify_eq. destruct tail'; [done|]. cbn in Hs. lia. }
  destruct (if is_empty tail then OsPath.split head else (head, tail))
    as [head' tail'].
  destruct (negb (is_empty head') && negb (is_empty tail')
            && negb (Os.path_exists w head')) eqn:Hc;
    [|apply mkdir_exist_ok_not_recursion].
  apply andb_true_iff in Hc as [Hc _]. apply andb_true_iff in Hc as [_ Hc].
  apply negb_true_iff in Hc.
  rewrite bind_run. unfold try_except.
  destruct (Os.makedirs_go fuel head' w) as [w1 [[]|e]] eqn:E.
  - destruct (String.eqb tail' "."); [done|apply mkdir_exist_ok_not_recursion].
  - destruct e; unfold raise, mret, M_ret; try done.
    + by apply IH in E; [|by eapply Hhead].
    + destruct (String.eqb tail' "."); [done|apply mkdir_exist_ok_not_recursion].
Qed.

Lemma makedirs_fuel (name : string) (w w' : World) :
  Os.makedirs name w ≠ (w', Raise RecursionError).
Proof. apply makedirs_go_fuel. lia. Qed.

(** ** The bitmap branch of the reader *)

Lemma bmp_for_spec (image_bytes : list byte) :
  ∀ out_string : string,
    bmp_for image_bytes out_string =
    out_string +:+ blob (map pixel_token image_bytes).
Proof.
  induction image_bytes as [|b rest IH]; intros out.
  - cbn. by rewrite app_empty_r.
  - cbn [bmp_for map]. rewrite IH, blob_cons. unfold pixel_token at 2.
    by rewrite !app_assoc_str.
Qed.

Lemma pixel_token_shape (b : byte) :
  ((Byte.to_N b < 16)%N
   ∧ ∃ d : ascii, pixel_token b = String "0" (String "x" (String d ","))
                  ∧ is_hex_digit d = true ∧ hex_value d = Byte.to_N b)
  ∨ ((16 ≤ Byte.to_N b)%N
     ∧ ∃ d1 d0 : ascii,
         pixel_token b = String "0" (String "x" (String d1 (String d0 ",")))
         ∧ is_hex_digit d1 = true ∧ is_hex_digit d0 = true ∧ d1 ≠ "0"%char
         ∧ (16 * hex_value d1 + hex_value d0)%N = Byte.to_N b).
Proof.
  destruct b;
    first [ left; split; [by vm_compute|]; eexists; split; [reflexivity|]; by vm_compute
          | right; split; [by vm_compute|]; do 2 eexists; split; [reflexivity|];
            repeat split; by vm_compute ].
Qed.

Section Bitmap.

Context (Image_decode : list byte → option (list byte)).
Context (wave_parse : list byte → option Wave.Wave_read).

(** X1: for a .bmp path naming a file that the image decoder accepts, the
    reader returns the length of the decoded pixel buffer as the count (not
    the length of the file) and one token per decoded byte, in order: 0x,
    the hexadecimal digits of the byte without padding (one digit below 16,
    two from 16 on) and a comma. *)
Theorem generate_array_bitmap
    (input_fname : string) (bs image_bytes : list byte) (w : World) :
  Py.endswith input_fname ".bmp" = true →
  files w !! input_fname = Some bs →
  Image_decode bs = Some image_bytes →
  generate_array Image_decode wave_parse input_fname w =
    (log (EvOpen input_fname "rb") w,
     Ok (Z.of_nat (length image_bytes), blob (map pixel_token image_bytes)))
  ∧ ∀ b : byte,
      ((Byte.to_N b < 16)%N
       ∧ ∃ d : ascii, pixel_token b = String "0" (String "x" (String d ","))
                      ∧ is_hex_digit d = true ∧ hex_value d = Byte.to_N b)
      ∨ ((16 ≤ Byte.to_N b)%N
         ∧ ∃ d1 d0 : ascii,
             pixel_token b = String "0" (String "x" (String d1 (String d0 ",")))
             ∧ is_hex_digit d1 = true ∧ is_hex_digit d0 = true ∧ d1 ≠ "0"%char
             ∧ (16 * hex_value d1 + hex_value d0)%N = Byte.to_N b).
Proof.
  intros Hext Hfile Hdec. split; [|apply pixel_token_shape].
  unfold generate_array, Image_open_tobytes.
  destruct (Py.endswith input_fname ".tflite") eqn:E;
    [apply endswith_tflite_not_bmp in E; congruence|].
  rewrite Hext.
  assert (is_empty input_fname = false) as Hne
    by (by eapply endswith_nonempty; [|exact Hext]).
  rewrite bind_run, (bind_run_ok _ _ _ _ _ (open_rb_file _ _ _ Hne Hfile)), Hdec.
  unfold mret, M_ret. by rewrite bmp_for_spec, app_empty_l.
Qed.

(** A path with none of the three extensions: the reader raises without
    opening anything. *)
Lemma generate_array_unsupported (input_fname : string) (w : World) :
  Py.endswith input_fname ".tflite" = false →
  Py.endswith input_fname ".bmp" = false →
  Py.endswith input_fname ".wav" = false →
  generate_array Image_decode wave_parse input_fname w =
    (w, Raise (ValueError "input file must be .tflite, .bmp or .wav")).
Proof. intros H1 H2 H3. unfold generate_array. by rewrite H1, H2, H3. Qed.

End Bitmap.

Lemma generate_array_bitmap_witness :
  Py.endswith "img.bmp" ".bmp" = true
  ∧ files bitmap_world !! "img.bmp" = Some [x42; x4d; x00; x0a; xff]
  ∧ after_header [x42; x4d; x00; x0a; xff] = Some [x00; x0a; xff]
  ∧ (generate_array after_header raw_pcm16 "img.bmp" bitmap_world =
       (log (EvOpen "img.bmp" "rb") bitmap_world, Ok (3%Z, "0x0,0xa,0xff,"))
     ∧ ∀ b : byte,
         ((Byte.to_N b < 16)%N
          ∧ ∃ d : ascii, pixel_token b = String "0" (String "x" (String d ","))
                         ∧ is_hex_digit d = true ∧ hex_value d = Byte.to_N b)
         ∨ ((16 ≤ Byte.to_N b)%N
            ∧ ∃ d1 d0 : ascii,
                pixel_token b = String "0" (String "x" (String d1 (String d0 ",")))
                ∧ is_hex_digit d1 = true ∧ is_hex_digit d0 = true ∧ d1 ≠ "0"%char
                ∧ (16 * hex_value d1 + hex_value d0)%N = Byte.to_N b)).
Proof.
  split; [reflexivity|]. split; [reflexivity|]. split; [reflexivity|].
  apply (generate_array_bitmap after_header raw_pcm16 "img.bmp"
           [x42; x4d; x00; x0a; xff] [x00; x0a; xff] bitmap_world); reflexivity.
Defined.


(** ** The content blob determines the bytes *)

Lemma byte_to_N_inj (a b : byte) : Byte.to_N a = Byte.to_N b → a = b.
Proof.
  intros H. pose proof (Byte.of_to_N a) as Ha. rewrite H, Byte.of_to_N in Ha.
  by simplify_eq.
Qed.

Lemma hex_token_inj (a b : byte) (s t : string) :
  hex_token a +:+ s = hex_token b +:+ t → a = b ∧ s = t.
Proof.
  destruct (hex_token_shape a) as (a1 & a0 & -> & _ & _ & Ha).
  destruct (hex_token_shape b) as (b1 & b0 & -> & _ & _ & Hb).
  rewrite !app_cons. intros H. simplify_eq.
  split; [|done]. apply byte_to_N_inj. congruence.
Qed.

Lemma hex_blob_inj (bs1 : list byte) :
  ∀ bs2 : list byte,
    blob (map hex_token bs1) = blob (map hex_token bs2) → bs1 = bs2.
Proof.
  induction bs1 as [|a bs1 IH]; intros [|b bs2] H; [done|..].
  - cbn [map] in H. rewrite blob_cons in H.
    destruct (hex_token_shape b) as (? & ? & Hb & _). by rewrite Hb in H.
  - cbn [map] in H. rewrite blob_cons in H.
    destruct (hex_token_shape a) as (? & ? & Ha & _). by rewrite Ha in H.
  - cbn [map] in H. rewrite !blob_cons in H.
    apply hex_token_inj in H as [-> H]. f_equal. by apply IH.
Qed.

Lemma int_from_bytes_short (raw : list byte) :
  length raw ≤ 2 → fits_short (Py.int_from_bytes raw).
Proof.
  intros Hlen. unfold fits_short.
  destruct raw as [|a raw]; [by vm_compute|].
  pose proof (int_from_bytes_range (a :: raw) ltac:(done)) as Hr.
  assert (2 ^ (8 * Z.of_nat (length (a :: raw)) - 1) ≤ 2 ^ 15)%Z as Hp.
  { apply Z.pow_le_mono_r; [lia|]. cbn [length] in *. lia. }
  change (2 ^ 15)%Z with 32768%Z in Hp. lia.
Qed.

Lemma frame_length (wav : Wave.Wave_read) (i : nat) :
  length (frame wav i) ≤ Wave.framesize wav.
Proof. unfold frame. rewrite length_take. lia. Qed.

Section ReaderRuns.

Context (Image_decode : list byte → option (list byte)).
Context (wave_parse : list byte → option Wave.Wave_read).

Lemma generate_array_tflite_run
    (input_fname : string) (bs : list byte) (w : World) :
  Py.endswith input_fname ".tflite" = true →
  files w !! input_fname = Some bs →
  generate_array Image_decode wave_parse input_fname w =
    (log (EvOpen input_fname "rb") w,
     Ok (Z.of_nat (length bs), blob (map hex_token bs))).
Proof.
  intros Hext Hfile. unfold generate_array. rewrite Hext.
  assert (is_empty input_fname = false) as Hne
    by (by eapply endswith_nonempty; [|exact Hext]).
  rewrite (bind_run_ok _ _ _ _ _ (open_rb_file _ _ _ Hne Hfile)).
  destruct bs as [|b rest]; [reflexivity|].
  cbn [file_read take drop]. rewrite take_0, drop_0.
  rewrite tflite_while_spec by (simpl; lia).
  unfold mret, M_ret. do 3 f_equal. cbn [length]. lia.
Qed.

Lemma generate_array_wav_run
    (input_fname : string) (bs : list byte) (wav : Wave.Wave_read) (w : World) :
  Py.endswith input_fname ".wav" = true →
  files w !! input_fname = Some bs →
  wave_parse bs = Some wav →
  generate_array Image_decode wave_parse input_fname w =
    (log (EvOpen input_fname "rb") w,
     Ok (Z.of_nat (Wave.nframes wav),
         blob (map (λ i, sample_token (frame wav i)) (seq 0 (Wave.nframes wav))))).
Proof.
  intros Hext Hfile Hwav. unfold generate_array.
  rewrite (endswith_wav_not_tflite _ Hext), (endswith_wav_not_bmp _ Hext), Hext.
  assert (is_empty input_fname = false) as Hne
    by (by eapply endswith_nonempty; [|exact Hext]).
  rewrite (bind_run_ok _ _ _ _ _ (wave_open_file _ _ _ _ _ Hne Hfile Hwav)).
  unfold Wave.getnframes at 1. rewrite Nat2Z.id.
  destruct (wav_for_spec (Wave.nframes wav) wav EmptyString) as [Hout Hn].
  destruct (wav_for (Wave.nframes wav) wav EmptyString) as [wav' out].
  cbn [fst snd] in Hout, Hn. rewrite Hout, app_empty_l.
  unfold Wave.close, Wave.getnframes. by rewrite Hn.
Qed.

(** X2: two .tflite files for which the reader returns the same result
    hold the same bytes: the rendering loses nothing. *)
Theorem generate_array_binary_blob_injective
    (f1 f2 : string) (w1 w2 : World) (bs1 bs2 : list byte) :
  Py.endswith f1 ".tflite" = true → Py.endswith f2 ".tflite" = true →
  files w1 !! f1 = Some bs1 → files w2 !! f2 = Some bs2 →
  (generate_array Image_decode wave_parse f1 w1).2 =
  (generate_array Image_decode wave_parse f2 w2).2 →
  bs1 = bs2.
Proof.
  intros He1 He2 Hf1 Hf2.
  rewrite (generate_array_tflite_run _ _ _ He1 Hf1),
    (generate_array_tflite_run _ _ _ He2 Hf2).
  cbn [snd]. intros H. simplify_eq. by apply hex_blob_inj.
Qed.

(** X3: for a waveform whose frames are at most two bytes wide, every
    value rendered lies in the range of the declared element type short. *)
Theorem generate_array_waveform_fits_short
    (input_fname : string) (bs : list byte) (wav : Wave.Wave_read) (w : World) :
  Py.endswith input_fname ".wav" = true →
  files w !! input_fname = Some bs →
  wave_parse bs = Some wav →
  Wave.framesize wav ≤ 2 →
  ∃ samples : list Z,
    (generate_array Image_decode wave_parse input_fname w).2 =
      Ok (Z.of_nat (Wave.nframes wav),
          blob (map (λ v, Py.str v +:+ ",") samples))
    ∧ length samples = Wave.nframes wav
    ∧ Forall fits_short samples.
Proof.
  intros Hext Hfile Hwav Hsize.
  exists (map (λ i, Py.int_from_bytes (frame wav i)) (seq 0 (Wave.nframes wav))).
  split; [|split].
  - rewrite (generate_array_wav_run _ _ _ _ Hext Hfile Hwav). cbn [snd].
    by rewrite map_map.
  - by rewrite length_map, length_seq.
  - apply Forall_forall. intros v Hv. apply list_elem_of_In, in_map_iff in Hv as (i & <- & _).
    apply int_from_bytes_short. pose proof (frame_length wav i). lia.
Qed.

End ReaderRuns.

Lemma generate_array_binary_blob_injective_witness :
  Py.endswith "model.tflite" ".tflite" = true
  ∧ Py.endswith "copy.tflite" ".tflite" = true
  ∧ files scenario_world !! "model.tflite" = Some [x01; x02]
  ∧ files (mkWorld {[ "copy.tflite" := [x01; x02] ]} ∅ []) !! "copy.tflite"
    = Some [x01; x02]
  ∧ (generate_array no_image raw_pcm16 "model.tflite" scenario_world).2 =
    (generate_array no_image raw_pcm16 "copy.tflite"
       (mkWorld {[ "copy.tflite" := [x01; x02] ]} ∅ [])).2
  ∧ [x01; x02] = [x01; x02].
Proof.
  split; [reflexivity|]. split; [reflexivity|]. split; [reflexivity|].
  split; [reflexivity|]. split; [reflexivity|].
  apply (generate_array_binary_blob_injective no_image raw_pcm16
           "model.tflite" "copy.tflite" scenario_world
           (mkWorld {[ "copy.tflite" := [x01; x02] ]} ∅ []) [x01; x02] [x01; x02]);
    reflexivity.
Defined.

Lemma generate_array_waveform_fits_short_witness :
  Py.endswith "sound.wav" ".wav" = true
  ∧ files scenario_world !! "sound.wav" = Some [xff; xff; x00; x00; xff; x7f]
  ∧ raw_pcm16 [xff; xff; x00; x00; xff; x7f]
    = Some (Wave.mkWave 3 2 [xff; xff; x00; x00; xff; x7f])
  ∧ Wave.framesize (Wave.mkWave 3 2 [xff; xff; x00; x00; xff; x7f]) ≤ 2
  ∧ ∃ samples : list Z,
      (generate_array no_image raw_pcm16 "sound.wav" scenario_world).2 =
        Ok (3%Z, blob (map (λ v, Py.str v +:+ ",") samples))
      ∧ length samples = 3
      ∧ Forall fits_short samples.
Proof.
  split; [reflexivity|]. split; [reflexivity|]. split; [reflexivity|].
  split; [cbn; lia|].
  apply (generate_array_waveform_fits_short no_image raw_pcm16 "sound.wav"
           [xff; xff; x00; x00; xff; x7f]
           (Wave.mkWave 3 2 [xff; xff; x00; x00; xff; x7f]) scenario_world);
    [reflexivity|reflexivity|reflexivity|cbn; lia].
Defined.

(** ** What the writer leaves behind *)

Lemma endswith_h_not_cc (s : string) :
  Py.endswith s ".h" = true → Py.endswith s ".cc" = false.
Proof.
  intros H. destruct (Py.endswith s ".cc") eqn:E; [|done].
  apply endswith_cc_not_h in E. congruence.
Qed.

Lemma open_w_inv (path : string) (w w2 : World) (r : result string) :
  Os.open_w path w = (w2, r) →
  (∃ e, r = Raise e ∧ w2 = log (EvOpen path "w") w)
  ∨ (r = Ok path
     ∧ w2 = set_files (<[path := []]> (files w)) (log (EvOpen path "w") w)).
Proof.
  unfold Os.open_w. intros H.
  repeat case_match; simplify_eq; eauto.
Qed.

(** Every way a call of the writer can end. *)
Lemma generate_file_inv
    (out_fname array_name array_type array_contents : string) (size : Z)
    (w w' : World) (r : result unit) :
  generate_file out_fname array_name array_type array_contents size w = (w', r) →
  ∃ w1 r1, Os.makedirs (OsPath.dirname out_fname) w = (w1, r1)
  ∧ ((∃ e, r = Raise e ∧ files w' = files w1 ∧ dirs w' = dirs w1
           ∧ (trace w' = trace w1 ∨ trace w' = trace w1 ++ [EvOpen out_fname "w"]))
     ∨ (r = Ok tt ∧ r1 = Ok tt ∧ dirs w' = dirs w1
        ∧ trace w' = trace w1 ++ [EvOpen out_fname "w"]
        ∧ ((Py.endswith out_fname ".cc" = true
            ∧ files w' =
              <[out_fname :=
                  String.list_byte_of_string
                    (definition_text
                       (Py.replace (Py.final (Py.split out_fname "genfiles/"))
                          ".cc" ".h")
                       array_type array_name array_contents size)]> (files w1))
           ∨ (Py.endswith out_fname ".h" = true
              ∧ files w' =
                <[out_fname :=
                    String.list_byte_of_string
                      (declaration_text array_type array_name)]> (files w1))))).
Proof.
  unfold generate_file. intros H. rewrite bind_run in H.
  destruct (Os.makedirs _ w) as [w1 [[]|e]] eqn:Emk; exists w1; eexists;
    (split; [reflexivity|]); [|left; simplify_eq; eauto 10].
  destruct (Py.endswith out_fname ".cc") eqn:Hcc;
    [|destruct (Py.endswith out_fname ".h") eqn:Hh].
  - rewrite bind_run in H.
    destruct (Os.open_w out_fname w1) as [w2 ro] eqn:Eo.
    apply open_w_inv in Eo as [(e & -> & ->)|[-> ->]].
    + left. simplify_eq. eauto 10.
    + repeat (erewrite bind_run_ok in H; [|apply write_appends]).
      unfold Os.close, mret, M_ret in H. simplify_eq. right.
      repeat split; try done. left. split; [done|]. cbn [files set_files].
      unfold definition_text.
      by rewrite !list_byte_of_string_app, !app_nil_l, <- !app_assoc.
  - rewrite bind_run in H.
    destruct (Os.open_w out_fname w1) as [w2 ro] eqn:Eo.
    apply open_w_inv in Eo as [(e & -> & ->)|[-> ->]].
    + left. simplify_eq. eauto 10.
    + repeat (erewrite bind_run_ok in H; [|apply write_appends]).
      unfold Os.close, mret, M_ret in H. simplify_eq. right.
      repeat split; try done. right. split; [done|]. cbn [files set_files].
      unfold declaration_text.
      by rewrite !list_byte_of_string_app, !app_nil_l, <- !app_assoc.
  - left. unfold raise in H. simplify_eq. eauto 10.
Qed.

(** X5: a successful call of the writer on a .cc path leaves at that path
    exactly the definition text (whatever was there before), and every
    other file as it was; no directory has gone. *)
Theorem generate_file_definition_success
    (out_fname array_name array_type array_contents : string) (size : Z)
    (w w' : World) :
  Py.endswith out_fname ".cc" = true →
  generate_file out_fname array_name array_type array_contents size w = (w', Ok tt) →
  files w' !! out_fname =
    Some (String.list_byte_of_string
            (definition_text
               (Py.replace (Py.final (Py.split out_fname "genfiles/")) ".cc" ".h")
               array_type array_name array_contents size))
  ∧ (∀ p, p ≠ out_fname → files w' !! p = files w !! p)
  ∧ dirs w ⊆ dirs w'
  ∧ opened_for_writing w' = opened_for_writing w ++ [out_fname].
Proof.
  intros Hcc H.
  apply generate_file_inv in H as (w1 & r1 & Hmk & [(e & ? & _)|(_ & -> & Hd & Ht & Hf)]);
    [done|].
  apply makedirs_frame in Hmk as (Hf1 & Ht1 & Hd1).
  destruct Hf as [[_ Hf]|[Hh _]]; [|apply endswith_cc_not_h in Hcc; congruence].
  rewrite Hf, Hf1. repeat split.
  - apply lookup_insert_eq.
  - intros p Hp. by apply lookup_insert_ne.
  - by rewrite Hd.
  - unfold opened_for_writing, write_opens. by rewrite Ht, Ht1, omap_app.
Qed.

(** X4: on a .h path the writer does the same whatever the contents and the
    size it is given, and a successful call leaves at that path exactly the
    two extern declarations and every other file as it was. *)
Theorem generate_file_declaration_success
    (out_fname array_name array_type array_contents : string) (size : Z)
    (w : World) :
  Py.endswith out_fname ".h" = true →
  (∀ contents' size',
     generate_file out_fname array_name array_type contents' size' w =
     generate_file out_fname array_name array_type array_contents size w)
  ∧ ∀ w', generate_file out_fname array_name array_type array_contents size w
          = (w', Ok tt) →
      files w' !! out_fname =
        Some (String.list_byte_of_string (declaration_text array_type array_name))
      ∧ (∀ p, p ≠ out_fname → files w' !! p = files w !! p)
      ∧ opened_for_writing w' = opened_for_writing w ++ [out_fname].
Proof.
  intros Hh. pose proof (endswith_h_not_cc _ Hh) as Hcc. split.
  - intros c' s'. unfold generate_file. by rewrite Hcc, Hh.
  - intros w' H.
    apply generate_file_inv in H as (w1 & r1 & Hmk & [(e & ? & _)|(_ & -> & Hd & Ht & Hf)]);
      [done|].
    apply makedirs_frame in Hmk as (Hf1 & Ht1 & Hd1).
    destruct Hf as [[Hcc' _]|[_ Hf]]; [congruence|].
    rewrite Hf, Hf1. repeat split.
    + apply lookup_insert_eq.
    + intros p Hp. by apply lookup_insert_ne.
    + unfold opened_for_writing, write_opens. by rewrite Ht, Ht1, omap_app.
Qed.

(** ** What a run never does *)

Lemma only_artifacts_change_same (w w' : World) :
  files w' = files w → dirs w' = dirs w → only_artifacts_change w w'.
Proof. intros Hf Hd. unfold only_artifacts_change. by rewrite Hf, Hd. Qed.

Lemma only_artifacts_change_trans (w1 w2 w3 : World) :
  only_artifacts_change w1 w2 → only_artifacts_change w2 w3 →
  only_artifacts_change w1 w3.
Proof.
  intros (Hd & Hs & Hk) (Hd' & Hs' & Hk'). repeat split.
  - by etrans.
  - intros p Hp. by apply Hs', Hs.
  - intros p Hcc Hh. by rewrite Hk', Hk.
Qed.

Lemma generate_file_only_artifacts
    (out_fname array_name array_type array_contents : string) (size : Z)
    (w w' : World) (r : result unit) :
  generate_file out_fname array_name array_type array_contents size w = (w', r) →
  only_artifacts_change w w'.
Proof.
  intros H. apply generate_file_inv in H as (w1 & r1 & Hmk & H).
  apply makedirs_frame in Hmk as (Hf1 & _ & Hd1).
  destruct H as [(e & _ & Hf & Hd & _)|(_ & _ & Hd & _ & Hf)].
  - repeat split; rewrite ?Hf, ?Hf1, ?Hd; done.
  - assert (∃ content, files w' = <[out_fname := content]> (files w)
                       ∧ (Py.endswith out_fname ".cc" = true
                          ∨ Py.endswith out_fname ".h" = true))
      as (content & Hf' & Hext).
    { destruct Hf as [[? ->]|[? ->]]; rewrite Hf1; eauto. }
    repeat split.
    + by rewrite Hd.
    + intros p Hp. rewrite Hf'. destruct (decide (out_fname = p)) as [->|Hne].
      * by rewrite lookup_insert_eq.
      * by rewrite lookup_insert_ne.
    + intros p Hcc Hh. rewrite Hf'. apply lookup_insert_ne.
      intros ->. destruct Hext; congruence.
Qed.

Section Never.

Context (Image_decode : list byte → option (list byte)).
Context (wave_parse : list byte → option Wave.Wave_read).

(** The reader only opens its input: the world it leaves is the one it
    found, with at most that event added. *)
Lemma generate_array_world
    (input_fname : string) (w w' : World) (r : result (Z * string)) :
  generate_array Image_decode wave_parse input_fname w = (w', r) →
  w' = w ∨ w' = log (EvOpen input_fname "rb") w.
Proof.
  unfold generate_array, Image_open_tobytes, wave_open. intros H.
  destruct (Py.endswith input_fname ".tflite");
    [|destruct (Py.endswith input_fname ".bmp");
      [|destruct (Py.endswith input_fname ".wav");
        [|left; unfold raise in H; by simplify_eq]]]; right.
  - rewrite bind_run in H.
    destruct (Os.open_rb input_fname w) as [w1 [bs|e]] eqn:E;
      apply open_rb_world in E; [|by simplify_eq].
    destruct (file_read 1 bs). unfold mret, M_ret in H. by simplify_eq.
  - rewrite !bind_run in H.
    destruct (Os.open_rb input_fname w) as [w1 [bs|e]] eqn:E;
      apply open_rb_world in E; [|by simplify_eq].
    destruct (Image_decode bs); unfold mret, M_ret, raise in H; by simplify_eq.
  - rewrite !bind_run in H.
    destruct (Os.open_rb input_fname w) as [w1 [bs|e]] eqn:E;
      apply open_rb_world in E; [|by simplify_eq].
    destruct (wave_parse bs) as [wav|]; [|unfold raise in H; by simplify_eq].
    unfold mret at 1, M_ret in H. destruct (wav_for _ _ _).
    unfold mret, M_ret in H. by simplify_eq.
Qed.

Lemma generate_array_only_artifacts
    (input_fname : string) (w w' : World) (r : result (Z * string)) :
  generate_array Image_decode wave_parse input_fname w = (w', r) →
  files w' = files w ∧ dirs w' = dirs w.
Proof. intros H. by apply generate_array_world in H as [->| ->]. Qed.

Lemma main_for_body_only_artifacts
    (args : Namespace) (input_file : string) (w w' : World) (r : result unit) :
  main_for_body Image_decode wave_parse args input_file w = (w', r) →
  only_artifacts_change w w'.
Proof.
  unfold main_for_body. rewrite suffix_step. intros H.
  destruct (kind_of_path input_file) as [k|];
    [|unfold raise in H; rewrite bind_run in H; simplify_eq;
      by apply only_artifacts_change_same].
  rewrite ret_bind, print_bind, bind_run in H.
  destruct (generate_array _ _ _ _) as [w2 ra] eqn:Ega.
  apply generate_array_only_artifacts in Ega as [Hf Hd]. cbn [files dirs log] in Hf, Hd.
  assert (only_artifacts_change w w2) as H2 by (by apply only_artifacts_change_same).
  destruct ra as [[size cc_array]|e]; [|by simplify_eq].
  rewrite bind_run, lift_bind in H.
  destruct (get_array_name input_file) as [[[name ty]|]|e];
    unfold unpack2, mret, M_ret, raise in H; try by simplify_eq.
  rewrite bind_run in H.
  destruct (generate_file _ _ _ _ _ w2) as [w3 rc] eqn:Ecc.
  apply generate_file_only_artifacts in Ecc.
  destruct rc as [[]|e]; [|simplify_eq; by eapply only_artifacts_change_trans].
  apply generate_file_only_artifacts in H.
  eapply only_artifacts_change_trans; [|exact H].
  by eapply only_artifacts_change_trans.
Qed.

Lemma for_each_only_artifacts (args : Namespace) (keys : list string) :
  ∀ (w w' : World) (r : result unit),
    for_each keys (main_for_body Image_decode wave_parse args) w = (w', r) →
    only_artifacts_change w w'.
Proof.
  induction keys as [|input_file keys IH]; intros w w' r H.
  - unfold for_each, mret, M_ret in H. simplify_eq.
    by apply only_artifacts_change_same.
  - cbn [for_each] in H. rewrite bind_run in H.
    destruct (main_for_body _ _ _ _ w) as [w1 [[]|e]] eqn:Ebody;
      apply main_for_body_only_artifacts in Ebody; [|by simplify_eq].
    apply IH in H. by eapply only_artifacts_change_trans.
Qed.

(** X6: however a run of main ends, every file whose path ends in neither
    .cc nor .h is exactly as it was, so an input of a recognized kind is
    never modified; no file and no directory has gone. *)
Theorem main_only_artifacts_change (args : Namespace) (w w' : World) (r : result unit) :
  main Image_decode wave_parse args w = (w', r) →
  (∀ p, Py.endswith p ".cc" = false → Py.endswith p ".h" = false →
        files w' !! p = files w !! p)
  ∧ (∀ p, is_Some (files w !! p) → is_Some (files w' !! p))
  ∧ dirs w ⊆ dirs w'.
Proof.
  intros H.
  assert (only_artifacts_change w w') as (Hd & Hs & Hk); [|done].
  unfold main in H.
  destruct (Py.endswith (output args) ".cc" || Py.endswith (output args) ".h");
    [|by eapply for_each_only_artifacts].
  rewrite bind_run in H. unfold py_assert in H.
  destruct (length (inputs args) =? 1);
    [|unfold raise in H; simplify_eq; by apply only_artifacts_change_same].
  unfold mret at 1, M_ret in H.
  destruct (inputs args !! 0) as [input0|];
    [|unfold raise in H; simplify_eq; by apply only_artifacts_change_same].
  rewrite bind_run in H.
  destruct (generate_array _ _ _ _) as [w2 ra] eqn:Ega.
  apply generate_array_only_artifacts in Ega as [Hf Hd].
  assert (only_artifacts_change w w2) as H2 by (by apply only_artifacts_change_same).
  destruct ra as [[size cc_array]|e]; [|by simplify_eq].
  rewrite bind_run, lift_bind in H.
  destruct (get_array_name input0) as [[[name ty]|]|e];
    unfold unpack2, mret, M_ret, raise in H; try by simplify_eq.
  apply generate_file_only_artifacts in H.
  by eapply only_artifacts_change_trans.
Qed.

End Never.

(** ** The identifier and the directory of the input *)

Lemma get_array_name_kind (path : string) (k : Kind) :
  kind_of_path path = Some k →
  get_array_name path =
    Ok (Some ("g_" +:+ base_name path +:+ kind_suffix k, element_type k)).
Proof.
  unfold get_array_name, kind_of_path, base_name. intros H.
  repeat case_match; by simplify_eq.
Qed.

Lemma endswith_app_l (x s suffix : string) :
  Py.endswith s suffix = true → Py.endswith (x +:+ s) suffix = true.
Proof.
  intros H. apply endswith_inv in H as [p ->].
  rewrite <- app_assoc_str. apply endswith_app.
Qed.

Lemma before_first_app (c : ascii) (d s : string) :
  contains_char c d = false →
  before_first c (d +:+ s) = d +:+ before_first c s.
Proof.
  induction d as [|x d IH]; [done|]. cbn [contains_char]. intros H.
  apply orb_false_iff in H as [Hx Hd].
  rewrite !app_cons. cbn [before_first]. by rewrite Hx, IH.
Qed.

Lemma contains_char_app (c : ascii) (s t : string) :
  contains_char c (s +:+ t) = contains_char c s || contains_char c t.
Proof.
  induction s as [|x s IH]; [done|]. rewrite app_cons. cbn [contains_char].
  by rewrite IH, orb_assoc.
Qed.

Lemma after_last_app (c : ascii) (d s : string) :
  after_last c (d +:+ String c s) = after_last c s.
Proof.
  induction d as [|x d IH].
  - rewrite app_empty_l. cbn [after_last contains_char].
    by rewrite Ascii.eqb_refl.
  - rewrite app_cons. cbn [after_last].
    assert (contains_char c (String x (d +:+ String c s)) = true) as ->; [|done].
    cbn [contains_char]. rewrite contains_char_app. cbn [contains_char].
    rewrite Ascii.eqb_refl. by rewrite orb_true_r, orb_true_r.
Qed.

Lemma base_name_in_directory (d p : string) :
  contains_char "." d = false → base_name (d +:+ "/" +:+ p) = base_name p.
Proof.
  intros Hd. rewrite !base_name_chars.
  rewrite before_first_app by done.
  change ("/" +:+ p) with (String "/" p). cbn [before_first].
  change (Ascii.eqb "/" ".") with false. cbv iota.
  apply after_last_app.
Qed.

(** X10: the identifier and the element type of a recognized input do not
    depend on the directory it lies in, as long as no directory name holds a
    dot. *)
Theorem get_array_name_ignores_directory (d p : string) (k : Kind) :
  contains_char "." d = false →
  Py.endswith p (extension k) = true →
  get_array_name (d +:+ "/" +:+ p) = get_array_name p
  ∧ get_array_name p =
      Ok (Some ("g_" +:+ base_name p +:+ kind_suffix k, element_type k)).
Proof.
  intros Hd Hext.
  assert (kind_of_path p = Some k) as Hk by (by apply kind_of_path_extension).
  assert (kind_of_path (d +:+ "/" +:+ p) = Some k) as Hk'.
  { apply kind_of_path_extension. rewrite <- app_assoc_str. by apply endswith_app_l. }
  rewrite (get_array_name_kind _ _ Hk), (get_array_name_kind _ _ Hk').
  by rewrite base_name_in_directory.
Qed.

Lemma get_array_name_ignores_directory_witness :
  contains_char "." "data/models" = false
  ∧ Py.endswith "net.tflite" (extension BinaryBlob) = true
  ∧ (get_array_name ("data/models" +:+ "/" +:+ "net.tflite")
     = get_array_name "net.tflite"
     ∧ get_array_name "net.tflite" =
         Ok (Some ("g_" +:+ base_name "net.tflite" +:+ kind_suffix BinaryBlob,
                   element_type BinaryBlob))).
Proof.
  split; [reflexivity|]. split; [reflexivity|].
  apply (get_array_name_ignores_directory "data/models" "net.tflite" BinaryBlob);
    reflexivity.
Defined.

(** ** Absolute input paths *)

Lemma before_first_startswith (s : string) :
  Py.startswith s "/" = true → Py.startswith (before_first "." s) "/" = true.
Proof.
  destruct s as [|x s]; [done|]. unfold Py.startswith. rewrite prefix_char.
  intros H. apply Ascii.eqb_eq in H as ->. cbn [before_first].
  change (Ascii.eqb "/" ".") with false. cbv iota. rewrite prefix_char.
  apply Ascii.eqb_refl.
Qed.

Lemma join_absolute (out input_file : string) :
  Py.startswith input_file "/" = true →
  OsPath.join out (Py.first (Py.split input_file ".")) =
  Py.first (Py.split input_file ".").
Proof.
  intros H. unfold OsPath.join.
  change "." with (String "."%char EmptyString). rewrite split_char_first.
  by rewrite (before_first_startswith _ H).
Qed.

Lemma for_each_ext {A : Type} (l : list A) (f g : A → M unit) :
  (∀ x w, x ∈ l → f x w = g x w) → ∀ w, for_each l f w = for_each l g w.
Proof.
  induction l as [|x l IH]; intros H w; [done|].
  cbn [for_each]. rewrite !bind_run, H by (apply elem_of_cons; by left).
  destruct (g x w) as [w1 [[]|e]]; [|done].
  apply IH. intros y w2 Hy. apply H. apply elem_of_cons; by right.
Qed.

Section Absolute.

Context (Image_decode : list byte → option (list byte)).
Context (wave_parse : list byte → option Wave.Wave_read).

(** X12: in directory mode, when every input path is absolute the output
    directory plays no part: the artifacts go next to the inputs. *)
Theorem main_directory_mode_absolute_inputs
    (out out' : string) (l : list string) (w : World) :
  Py.endswith out ".cc" || Py.endswith out ".h" = false →
  Py.endswith out' ".cc" || Py.endswith out' ".h" = false →
  Forall (λ input_file, Py.startswith input_file "/" = true) l →
  main Image_decode wave_parse (mkArgs out l) w =
  main Image_decode wave_parse (mkArgs out' l) w
  ∧ Forall (λ input_file,
              ∀ k, output_base_fname out input_file k =
                   Py.first (Py.split input_file ".") +:+ kind_suffix k) l.
Proof.
  intros Hout Hout' Habs. split.
  - unfold main. cbn [output inputs]. rewrite Hout, Hout'.
    apply for_each_ext. intros i w1 Hi.
    rewrite dict_fromkeys_first_occurrences in Hi.
    apply (proj1 (first_occurrences_elem_of _ _)) in Hi.
    rewrite Forall_forall in Habs. specialize (Habs i Hi).
    unfold main_for_body. cbn [output].
    by rewrite !(join_absolute _ _ Habs).
  - eapply Forall_impl; [exact Habs|]. intros i Hi k. cbn beta in Hi.
    unfold output_base_fname. by rewrite join_absolute.
Qed.

End Absolute.

(** ** Successful runs *)

Lemma filter_all {A : Type} (P : A → Prop) `{∀ x, Decision (P x)} (l : list A) :
  (∀ x, x ∈ l → P x) → filter P l = l.
Proof.
  induction l as [|x l IH]; intros HP; [done|].
  rewrite filter_cons_True by (apply HP, elem_of_cons; by left).
  f_equal. apply IH. intros y Hy. apply HP, elem_of_cons. by right.
Qed.

Lemma first_occurrences_NoDup_id (l : list string) :
  NoDup l → first_occurrences l = l.
Proof.
  induction 1 as [|x l Hx Hl IH]; [done|]. cbn [first_occurrences].
  rewrite IH. f_equal. apply filter_all. by intros y Hy ->.
Qed.

Lemma open_rb_result_log (e : event) (path : string) (w : World) :
  (Os.open_rb path (log e w)).2 = (Os.open_rb path w).2.
Proof.
  unfold Os.open_rb.
  change (files (log ?a (log e w))) with (files w).
  change (files (log ?a w)) with (files w).
  change (Os.isdir (log ?a (log e w)) path) with (Os.isdir w path).
  change (Os.isdir (log ?a w) path) with (Os.isdir w path).
  by repeat case_match.
Qed.

Section Runs.

Context (Image_decode : list byte → option (list byte)).
Context (wave_parse : list byte → option Wave.Wave_read).

(** What the reader returns does not depend on the events so far. *)
Lemma generate_array_result_log (e : event) (input_fname : string) (w : World) :
  (generate_array Image_decode wave_parse input_fname (log e w)).2 =
  (generate_array Image_decode wave_parse input_fname w).2.
Proof.
  pose proof (open_rb_result_log e input_fname w) as Hrb.
  unfold generate_array, Image_open_tobytes, wave_open.
  destruct (Os.open_rb input_fname (log e w)) as [wa ra] eqn:Ea.
  destruct (Os.open_rb input_fname w) as [wb rb] eqn:Eb.
  cbn [snd] in Hrb. subst rb.
  destruct (Py.endswith input_fname ".tflite");
    [|destruct (Py.endswith input_fname ".bmp");
      [|destruct (Py.endswith input_fname ".wav"); [|done]]].
  - rewrite !bind_run, Ea, Eb. destruct ra as [bs|]; [|done].
    by destruct (file_read 1 bs).
  - rewrite !bind_run, Ea, Eb. destruct ra as [bs|]; [|done].
    by destruct (Image_decode bs).
  - rewrite !bind_run, Ea, Eb. destruct ra as [bs|]; [|done].
    destruct (wave_parse bs) as [wav|]; [|done].
    unfold mret at 1 3, M_ret. by destruct (wav_for _ _ _).
Qed.

(** X7: in single-file mode a successful run has exactly one input, of a
    recognized kind; it opens that input, then the output path for
    writing, and nothing else; the output holds the definition text or the
    declaration text according to its extension, every other file is as it
    was, and nothing is printed. *)
Theorem main_single_file_success (args : Namespace) (w w' : World) :
  Py.endswith (output args) ".cc" || Py.endswith (output args) ".h" = true →
  main Image_decode wave_parse args w = (w', Ok tt) →
  ∃ (input_file : string) (k : Kind) (size : Z) (cc_array : string),
    inputs args = [input_file]
    ∧ Py.endswith input_file (extension k) = true
    ∧ (generate_array Image_decode wave_parse input_file w).2 = Ok (size, cc_array)
    ∧ files w' !! output args =
        Some (String.list_byte_of_string
                (if Py.endswith (output args) ".cc"
                 then definition_text
                        (Py.replace
                           (Py.final (Py.split (output args) "genfiles/")) ".cc" ".h")
                        (element_type k)
                        ("g_" +:+ base_name input_file +:+ kind_suffix k)
                        cc_array size
                 else declaration_text (element_type k)
                        ("g_" +:+ base_name input_file +:+ kind_suffix k)))
    ∧ (∀ p, p ≠ output args → files w' !! p = files w !! p)
    ∧ trace w' = trace w ++ [EvOpen input_file "rb"; EvOpen (output args) "w"].
Proof.
  intros Hout H. unfold main in H. rewrite Hout in H.
  rewrite bind_run in H. unfold py_assert in H.
  destruct (length (inputs args) =? 1) eqn:Hlen; [|done].
  apply Nat.eqb_eq in Hlen. unfold mret at 1, M_ret in H.
  destruct (inputs args) as [|input_file [|? ?]] eqn:Hin; try done.
  cbn [lookup list_lookup] in H. rewrite bind_run in H.
  destruct (generate_array _ _ _ w) as [w2 [[size cc_array]|e]] eqn:Ega; [|done].
  pose proof Ega as Hw2. apply generate_array_world_ok in Hw2.
  rewrite bind_run, lift_bind in H.
  destruct (kind_of_path input_file) as [k|] eqn:Hk.
  - rewrite (get_array_name_kind _ _ Hk) in H.
    unfold unpack2, mret, M_ret in H.
    apply generate_file_inv in H
      as (w4 & r4 & Hmk & [(e & ? & _)|(_ & -> & _ & Ht & Hf)]); [done|].
    apply makedirs_frame in Hmk as (Hf4 & Ht4 & _).
    exists input_file, k, size, cc_array.
    split; [done|]. split; [by apply kind_of_path_extension|].
    split; [by rewrite Ega|].
    assert (files w2 = files w) as Hf2 by (by rewrite Hw2).
    assert (trace w2 = trace w ++ [EvOpen input_file "rb"]) as Ht2 by (by rewrite Hw2).
    split; [|split].
    + destruct Hf as [[Hcc ->]|[Hh ->]].
      * by rewrite Hcc, lookup_insert_eq.
      * by rewrite (endswith_h_not_cc _ Hh), lookup_insert_eq.
    + intros p Hp. destruct Hf as [[_ ->]|[_ ->]];
        by rewrite lookup_insert_ne, Hf4, Hf2.
    + by rewrite Ht, Ht4, Ht2, <- app_assoc.
  - rewrite (get_array_name_unrecognized _ Hk) in H. done.
Qed.

(** X8: when the first input has none of the three extensions (and, in
    single-file mode, is the only input), main raises the unsupported-format
    error in the world it started in: nothing is printed, opened or
    written. *)
Theorem main_unsupported_first_input
    (args : Namespace) (input_file : string) (rest : list string) (w : World) :
  inputs args = input_file :: rest →
  kind_of_path input_file = None →
  (Py.endswith (output args) ".cc" || Py.endswith (output args) ".h" = true →
   rest = []) →
  main Image_decode wave_parse args w =
    (w, Raise (ValueError "input file must be .tflite, .bmp or .wav")).
Proof.
  intros Hin Hk Hsingle. unfold main. rewrite Hin.
  apply kind_of_path_None in Hk as (H1 & H2 & H3).
  destruct (Py.endswith (output args) ".cc" || Py.endswith (output args) ".h").
  - rewrite (Hsingle eq_refl). cbn [length Nat.eqb py_assert].
    rewrite ret_bind. cbn [lookup list_lookup]. rewrite bind_run.
    by rewrite generate_array_unsupported.
  - rewrite dict_fromkeys_first_occurrences. cbn [first_occurrences for_each].
    rewrite bind_run. unfold main_for_body. by rewrite H1, H2, H3.
Qed.

(** X13: in single-file mode with an output path that has no directory
    part, no run succeeds, and no run changes a file or a directory. *)
Theorem main_single_file_bare_output
    (args : Namespace) (w w' : World) (r : result unit) :
  Py.endswith (output args) ".cc" || Py.endswith (output args) ".h" = true →
  contains_char "/" (output args) = false →
  main Image_decode wave_parse args w = (w', r) →
  r ≠ Ok tt ∧ files w' = files w ∧ dirs w' = dirs w.
Proof.
  intros Hout Hbare H. unfold main in H. rewrite Hout in H.
  rewrite bind_run in H. unfold py_assert in H.
  destruct (length (inputs args) =? 1);
    [|unfold raise in H; by simplify_eq].
  unfold mret at 1, M_ret in H.
  destruct (inputs args !! 0) as [input0|]; [|unfold raise in H; by simplify_eq].
  rewrite bind_run in H.
  destruct (generate_array _ _ _ w) as [w2 ra] eqn:Ega.
  apply generate_array_only_artifacts in Ega as [Hf Hd].
  destruct ra as [[size cc_array]|e]; [|by simplify_eq].
  rewrite bind_run, lift_bind in H.
  destruct (get_array_name input0) as [[[name ty]|]|e];
    unfold unpack2, mret, M_ret, raise in H; try by simplify_eq.
  rewrite generate_file_bare_name in H by done. by simplify_eq.
Qed.

(** X9: directory mode iterates over the first occurrences of the inputs:
    a list without duplicates that holds exactly the inputs; a run on the
    inputs is the run on that list, and a list without duplicates is
    iterated as it is. *)
Theorem main_directory_mode_first_occurrences
    (out : string) (l : list string) (w : World) :
  Py.endswith out ".cc" || Py.endswith out ".h" = false →
  main Image_decode wave_parse (mkArgs out l) w =
  main Image_decode wave_parse (mkArgs out (Py.dict_keys (Py.dict_fromkeys l))) w
  ∧ Py.dict_keys (Py.dict_fromkeys l) = first_occurrences l
  ∧ NoDup (Py.dict_keys (Py.dict_fromkeys l))
  ∧ (∀ x, x ∈ Py.dict_keys (Py.dict_fromkeys l) ↔ x ∈ l)
  ∧ (NoDup l → Py.dict_keys (Py.dict_fromkeys l) = l).
Proof.
  intros Hout. rewrite dict_fromkeys_first_occurrences.
  split; [|split; [done|split; [apply first_occurrences_NoDup|split]]].
  - unfold main. cbn [output inputs]. rewrite Hout.
    rewrite !dict_fromkeys_first_occurrences.
    by rewrite (first_occurrences_NoDup_id (first_occurrences l))
      by apply first_occurrences_NoDup.
  - apply first_occurrences_elem_of.
  - apply first_occurrences_NoDup_id.
Qed.

End Runs.

(** ** Missing inputs and shared stems *)

Lemma kind_of_path_nonempty (path : string) (k : Kind) :
  kind_of_path path = Some k → is_empty path = false.
Proof.
  intros H. apply kind_of_path_extension in H.
  eapply endswith_nonempty; [|exact H]. by destruct k.
Qed.

Lemma open_rb_missing (path : string) (w : World) :
  files w !! path = None → Os.isdir w path = false →
  Os.open_rb path w = (log (EvOpen path "rb") w, Raise (FileNotFoundError path)).
Proof.
  intros Hf Hd. unfold Os.open_rb.
  change (files (log ?a w)) with (files w).
  change (Os.isdir (log ?a w) path) with (Os.isdir w path).
  rewrite Hf, Hd. by destruct (is_empty path).
Qed.

Section Missing.

Context (Image_decode : list byte → option (list byte)).
Context (wave_parse : list byte → option Wave.Wave_read).

Lemma generate_array_missing (input_fname : string) (k : Kind) (w : World) :
  kind_of_path input_fname = Some k →
  files w !! input_fname = None → Os.isdir w input_fname = false →
  generate_array Image_decode wave_parse input_fname w =
    (log (EvOpen input_fname "rb") w, Raise (FileNotFoundError input_fname)).
Proof.
  intros Hk Hf Hd. pose proof (open_rb_missing _ _ Hf Hd) as Hrb.
  unfold generate_array, kind_of_path in *.
  destruct (Py.endswith input_fname ".tflite");
    [|destruct (Py.endswith input_fname ".bmp");
      [|destruct (Py.endswith input_fname ".wav"); [|done]]].
  - by rewrite (bind_run_raise _ _ _ _ _ Hrb).
  - apply bind_run_raise. unfold Image_open_tobytes.
    by rewrite (bind_run_raise _ _ _ _ _ Hrb).
  - apply bind_run_raise. unfold wave_open.
    by rewrite (bind_run_raise _ _ _ _ _ Hrb).
Qed.

(** X14: when the first input has a recognized extension but names no
    file, main fails with FileNotFoundError for that path after opening
    nothing else; in directory mode the definition path of that input has
    already been printed. No file or directory is created. *)
Theorem main_missing_first_input
    (args : Namespace) (input_file : string) (rest : list string) (k : Kind)
    (w : World) :
  inputs args = input_file :: rest →
  kind_of_path input_file = Some k →
  files w !! input_file = None → Os.isdir w input_file = false →
  (Py.endswith (output args) ".cc" || Py.endswith (output args) ".h" = true →
   rest = []) →
  main Image_decode wave_parse args w =
    (log (EvOpen input_file "rb")
       (if Py.endswith (output args) ".cc" || Py.endswith (output args) ".h"
        then w
        else log (EvPrint (output_base_fname (output args) input_file k +:+ ".cc")) w),
     Raise (FileNotFoundError input_file)).
Proof.
  intros Hin Hk Hf Hd Hsingle. unfold main. rewrite Hin.
  destruct (Py.endswith (output args) ".cc" || Py.endswith (output args) ".h").
  - rewrite (Hsingle eq_refl). cbn [length Nat.eqb py_assert].
    rewrite ret_bind. cbn [lookup list_lookup].
    by rewrite (bind_run_raise _ _ _ _ _ (generate_array_missing _ _ _ Hk Hf Hd)).
  - rewrite dict_fromkeys_first_occurrences. cbn [first_occurrences for_each].
    rewrite bind_run. unfold main_for_body. rewrite suffix_step, Hk.
    rewrite ret_bind, print_bind.
    fold (output_base_fname (output args) input_file k).
    by rewrite (bind_run_raise _ _ _ _ _
                  (generate_array_missing input_file k
                     (log (EvPrint (output_base_fname (output args) input_file k
                                    +:+ ".cc")) w) Hk Hf Hd)).
Qed.

(** The reader's result is a function of the bytes of the input. *)
Lemma generate_array_result_file
    (input_fname : string) (bs : list byte) (w1 w2 : World) :
  files w1 !! input_fname = Some bs → files w2 !! input_fname = Some bs →
  (generate_array Image_decode wave_parse input_fname w1).2 =
  (generate_array Image_decode wave_parse input_fname w2).2.
Proof.
  intros H1 H2.
  assert (∀ w, files w !! input_fname = Some bs →
               Os.open_rb input_fname w =
               (log (EvOpen input_fname "rb") w,
                if is_empty input_fname
                then Raise (FileNotFoundError input_fname) else Ok bs)) as Hrb.
  { intros w Hw. unfold Os.open_rb. change (files (log ?a w)) with (files w).
    rewrite Hw. by destruct (is_empty input_fname). }
  unfold generate_array, Image_open_tobytes, wave_open.
  destruct (Py.endswith input_fname ".tflite");
    [|destruct (Py.endswith input_fname ".bmp");
      [|destruct (Py.endswith input_fname ".wav"); [|done]]].
  - rewrite !bind_run, (Hrb _ H1), (Hrb _ H2).
    destruct (is_empty input_fname); [done|]. by destruct (file_read 1 bs).
  - rewrite !bind_run, (Hrb _ H1), (Hrb _ H2).
    destruct (is_empty input_fname); [done|]. by destruct (Image_decode bs).
  - rewrite !bind_run, (Hrb _ H1), (Hrb _ H2).
    destruct (is_empty input_fname); [done|].
    destruct (wave_parse bs) as [wav|]; [|done].
    unfold mret at 1 3, M_ret. by destruct (wav_for _ _ _).
Qed.

Lemma generate_array_ok_file
    (input_fname : string) (w w' : World) (r : Z * string) :
  generate_array Image_decode wave_parse input_fname w = (w', Ok r) →
  ∃ bs, files w !! input_fname = Some bs.
Proof.
  unfold generate_array, Image_open_tobytes, wave_open. intros H.
  assert (∀ w1 bs, Os.open_rb input_fname w = (w1, Ok bs) →
                   files w !! input_fname = Some bs) as Hrb.
  { intros w1 bs. unfold Os.open_rb. change (files (log ?a w)) with (files w).
    intros Ho. repeat case_match; by simplify_eq. }
  destruct (Py.endswith input_fname ".tflite");
    [|destruct (Py.endswith input_fname ".bmp");
      [|destruct (Py.endswith input_fname ".wav"); [|done]]];
    rewrite ?bind_run in H;
    destruct (Os.open_rb input_fname w) as [w1 [bs|e]] eqn:E; try done;
    exists bs; by eapply Hrb.
Qed.

(** One successful pass through the loop of directory mode. *)
Lemma main_for_body_success
    (args : Namespace) (input_file : string) (w w' : World) :
  main_for_body Image_decode wave_parse args input_file w = (w', Ok tt) →
  ∃ (k : Kind) (size : Z) (cc_array : string),
    kind_of_path input_file = Some k
    ∧ (generate_array Image_decode wave_parse input_file w).2 = Ok (size, cc_array)
    ∧ files w' =
        <[output_base_fname (output args) input_file k +:+ ".h" :=
            String.list_byte_of_string
              (declaration_text (element_type k)
                 ("g_" +:+ base_name input_file +:+ kind_suffix k))]>
          (<[output_base_fname (output args) input_file k +:+ ".cc" :=
               String.list_byte_of_string
                 (definition_text
                    (Py.replace
                       (Py.final
                          (Py.split
                             (output_base_fname (output args) input_file k +:+ ".cc")
                             "genfiles/")) ".cc" ".h")
                    (element_type k)
                    ("g_" +:+ base_name input_file +:+ kind_suffix k)
                    cc_array size)]> (files w)).
Proof.
  intros Ebody.
  unfold main_for_body in Ebody. rewrite suffix_step in Ebody.
  destruct (kind_of_path input_file) as [k|] eqn:Hk; [|done].
  rewrite ret_bind, print_bind, bind_run in Ebody.
  fold (output_base_fname (output args) input_file k) in Ebody.
  pose proof (generate_array_result_log Image_decode wave_parse
                (EvPrint (output_base_fname (output args) input_file k +:+ ".cc"))
                input_file w) as Hres.
  destruct (generate_array _ _ _ (log _ w)) as [w2 [[size cc_array]|e]] eqn:Ega;
    [|done].
  apply generate_array_only_artifacts in Ega as [Hf2 _]. cbn [files log] in Hf2.
  rewrite bind_run, lift_bind, (get_array_name_kind _ _ Hk) in Ebody.
  unfold unpack2, mret, M_ret in Ebody. rewrite bind_run in Ebody.
  destruct (generate_file _ _ _ _ _ w2) as [w3 [[]|e]] eqn:Ecc; [|done].
  apply generate_file_inv in Ecc as (w4 & r4 & Hmk & [(e & ? & _)|(_ & -> & _ & _ & Hf3)]);
    [done|].
  apply makedirs_frame in Hmk as (Hf4 & _ & _).
  destruct Hf3 as [[_ Hf3]|[Hh _]];
    [|by rewrite (endswith_cc_not_h _ (endswith_app _ _)) in Hh].
  apply generate_file_inv in Ebody
    as (w5 & r5 & Hmk' & [(e & ? & _)|(_ & -> & _ & _ & Hf6)]); [done|].
  apply makedirs_frame in Hmk' as (Hf5 & _ & _).
  destruct Hf6 as [[Hc _]|[_ Hf6]];
    [by rewrite (endswith_h_not_cc _ (endswith_app _ _)) in Hc|].
  exists k, size, cc_array.
  split; [done|]. split; [by rewrite <- Hres|].
  by rewrite Hf6, Hf5, Hf3, Hf4, Hf2.
Qed.

Lemma artifact_paths_differ (base : string) : base +:+ ".h" ≠ base +:+ ".cc".
Proof. intros Heq. by apply (inj (String.app _)) in Heq. Qed.

Lemma kind_not_artifact (path : string) (k : Kind) (base : string) :
  kind_of_path path = Some k → path ≠ base +:+ ".cc" ∧ path ≠ base +:+ ".h".
Proof.
  intros Hk. apply kind_of_path_extension in Hk.
  split; intros ->; apply endswith_last_char in Hk; try (by destruct k);
    rewrite last_char_app in Hk by done; by destruct k.
Qed.

(** X11: in directory mode with one input, a successful run leaves the
    definition and the declaration at the output base path; both carry the
    identifier and element type of the input, the definition holds the
    count and content the reader returns for it, and every other file is as
    it was. *)
Theorem main_directory_mode_one_input
    (out input_file : string) (w w' : World) :
  Py.endswith out ".cc" || Py.endswith out ".h" = false →
  main Image_decode wave_parse (mkArgs out [input_file]) w = (w', Ok tt) →
  ∃ (k : Kind) (size : Z) (cc_array : string),
    Py.endswith input_file (extension k) = true
    ∧ (generate_array Image_decode wave_parse input_file w).2 = Ok (size, cc_array)
    ∧ files w' !! (output_base_fname out input_file k +:+ ".cc") =
        Some (String.list_byte_of_string
                (definition_text
                   (Py.replace
                      (Py.final (Py.split (output_base_fname out input_file k +:+ ".cc")
                                   "genfiles/")) ".cc" ".h")
                   (element_type k)
                   ("g_" +:+ base_name input_file +:+ kind_suffix k)
                   cc_array size))
    ∧ files w' !! (output_base_fname out input_file k +:+ ".h") =
        Some (String.list_byte_of_string
                (declaration_text (element_type k)
                   ("g_" +:+ base_name input_file +:+ kind_suffix k)))
    ∧ ∀ p, p ≠ output_base_fname out input_file k +:+ ".cc" →
           p ≠ output_base_fname out input_file k +:+ ".h" →
           files w' !! p = files w !! p.
Proof.
  intros Hout H. unfold main in H. cbn [output inputs] in H. rewrite Hout in H.
  change (Py.dict_keys (Py.dict_fromkeys [input_file])) with [input_file] in H.
  cbn [for_each] in H. rewrite bind_run in H.
  destruct (main_for_body _ _ _ _ w) as [w0 [[]|e]] eqn:Ebody; [|done].
  unfold mret, M_ret in H. simplify_eq.
  apply main_for_body_success in Ebody as (k & size & cc_array & Hk & Hres & Hf).
  cbn [output] in Hf. exists k, size, cc_array.
  split; [by apply kind_of_path_extension|]. split; [done|].
  rewrite Hf. split; [|split].
  - rewrite lookup_insert_ne by apply artifact_paths_differ.
    by rewrite lookup_insert_eq.
  - by rewrite lookup_insert_eq.
  - intros p Hp1 Hp2. by rewrite !lookup_insert_ne.
Qed.

(** X15: deduplication by path does not keep two different inputs with
    the same first dot-delimited segment and the same kind apart: they
    share their output base path and identifier, both pairs of artifacts
    are written to the same two paths, and after a successful run the
    definition holds the count and content of the later input. *)
Theorem main_directory_mode_same_stem
    (out a b : string) (k : Kind) (w w' : World) :
  Py.endswith out ".cc" || Py.endswith out ".h" = false →
  a ≠ b →
  Py.first (Py.split a ".") = Py.first (Py.split b ".") →
  Py.endswith a (extension k) = true → Py.endswith b (extension k) = true →
  main Image_decode wave_parse (mkArgs out [a; b]) w = (w', Ok tt) →
  output_base_fname out a k = output_base_fname out b k
  ∧ get_array_name a = get_array_name b
  ∧ ∃ (size : Z) (cc_array : string),
      (generate_array Image_decode wave_parse b w).2 = Ok (size, cc_array)
      ∧ files w' !! (output_base_fname out b k +:+ ".cc") =
          Some (String.list_byte_of_string
                  (definition_text
                     (Py.replace
                        (Py.final
                           (Py.split (output_base_fname out b k +:+ ".cc")
                              "genfiles/")) ".cc" ".h")
                     (element_type k)
                     ("g_" +:+ base_name b +:+ kind_suffix k)
                     cc_array size)).
Proof.
  intros Hout Hab Hstem Ha Hb H.
  apply kind_of_path_extension in Ha, Hb.
  assert (output_base_fname out a k = output_base_fname out b k) as Hbase
    by (unfold output_base_fname; by rewrite Hstem).
  assert (base_name a = base_name b) as Hname
    by (unfold base_name; by rewrite Hstem).
  split; [done|].
  split; [by rewrite (get_array_name_kind _ _ Ha), (get_array_name_kind _ _ Hb), Hname|].
  unfold main in H. cbn [output inputs] in H. rewrite Hout in H.
  rewrite dict_fromkeys_first_occurrences in H.
  assert (first_occurrences [a; b] = [a; b]) as Hfo.
  { apply first_occurrences_NoDup_id. apply NoDup_cons. split.
    - by intros ?%list_elem_of_singleton.
    - apply NoDup_singleton. }
  rewrite Hfo in H. cbn [for_each] in H. rewrite bind_run in H.
  destruct (main_for_body _ _ _ a w) as [w1 [[]|e]] eqn:Ebody_a; [|done].
  rewrite bind_run in H.
  destruct (main_for_body _ _ _ b w1) as [w2 [[]|e]] eqn:Ebody_b; [|done].
  unfold mret, M_ret in H. simplify_eq.
  apply main_for_body_success in Ebody_a as (ka & sa & ca & Hka & _ & Hfa).
  apply main_for_body_success in Ebody_b as (kb & sb & cb & Hkb & Hrb & Hfb).
  cbn [output] in *. assert (ka = k) as -> by congruence.
  assert (kb = k) as -> by congruence.
  exists sb, cb. split.
  - assert (∃ bs, files w1 !! b = Some bs) as [bs Hbs].
    { destruct (generate_array Image_decode wave_parse b w1) as [w3 r3] eqn:Eg.
      cbn [snd] in Hrb. subst r3. by eapply generate_array_ok_file. }
    rewrite <- Hrb. apply (generate_array_result_file b bs); [|done].
    destruct (kind_not_artifact b k (output_base_fname out a k) Hb) as [Hn1 Hn2].
    rewrite Hfa in Hbs. by rewrite !lookup_insert_ne in Hbs.
  - rewrite Hfb. rewrite lookup_insert_ne by apply artifact_paths_differ.
    by rewrite lookup_insert_eq.
Qed.

End Missing.

(** ** The properties on the scenarios *)

Lemma generate_file_definition_success_witness :
  Py.endswith "gen/m.cc" ".cc" = true
  ∧ generate_file "gen/m.cc" "g_m" "short" "1,2," 2 scenario_world =
      ((generate_file "gen/m.cc" "g_m" "short" "1,2," 2 scenario_world).1, Ok tt)
  ∧ (files (generate_file "gen/m.cc" "g_m" "short" "1,2," 2 scenario_world).1
       !! "gen/m.cc" =
       Some (String.list_byte_of_string
               (definition_text
                  (Py.replace (Py.final (Py.split "gen/m.cc" "genfiles/")) ".cc" ".h")
                  "short" "g_m" "1,2," 2))
     ∧ (∀ p, p ≠ "gen/m.cc" →
             files (generate_file "gen/m.cc" "g_m" "short" "1,2," 2 scenario_world).1
               !! p = files scenario_world !! p)
     ∧ dirs scenario_world
       ⊆ dirs (generate_file "gen/m.cc" "g_m" "short" "1,2," 2 scenario_world).1
     ∧ opened_for_writing
         (generate_file "gen/m.cc" "g_m" "short" "1,2," 2 scenario_world).1
       = opened_for_writing scenario_world ++ ["gen/m.cc"]).
Proof.
  split; [reflexivity|].
  assert (generate_file "gen/m.cc" "g_m" "short" "1,2," 2 scenario_world =
          ((generate_file "gen/m.cc" "g_m" "short" "1,2," 2 scenario_world).1, Ok tt))
    as Hrun by (vm_compute; reflexivity).
  split; [exact Hrun|].
  apply (generate_file_definition_success "gen/m.cc" "g_m" "short" "1,2," 2
           scenario_world _ eq_refl Hrun).
Defined.

Lemma generate_file_declaration_success_witness :
  Py.endswith "gen/m.h" ".h" = true
  ∧ ((∀ contents' size',
        generate_file "gen/m.h" "g_m" "short" contents' size' scenario_world =
        generate_file "gen/m.h" "g_m" "short" "1,2," 2 scenario_world)
     ∧ ∀ w', generate_file "gen/m.h" "g_m" "short" "1,2," 2 scenario_world
             = (w', Ok tt) →
         files w' !! "gen/m.h" =
           Some (String.list_byte_of_string (declaration_text "short" "g_m"))
         ∧ (∀ p, p ≠ "gen/m.h" → files w' !! p = files scenario_world !! p)
         ∧ opened_for_writing w' = opened_for_writing scenario_world ++ ["gen/m.h"]).
Proof.
  split; [reflexivity|].
  apply (generate_file_declaration_success "gen/m.h" "g_m" "short" "1,2," 2
           scenario_world eq_refl).
Defined.

Lemma main_only_artifacts_change_witness :
  main no_image raw_pcm16 (mkArgs "out/" ["model.tflite"; "missing.wav"])
    scenario_world =
    ((main no_image raw_pcm16 (mkArgs "out/" ["model.tflite"; "missing.wav"])
        scenario_world).1,
     Raise (FileNotFoundError "missing.wav"))
  ∧ ((∀ p, Py.endswith p ".cc" = false → Py.endswith p ".h" = false →
           files (main no_image raw_pcm16
                    (mkArgs "out/" ["model.tflite"; "missing.wav"])
                    scenario_world).1 !! p
           = files scenario_world !! p)
     ∧ (∀ p, is_Some (files scenario_world !! p) →
             is_Some (files (main no_image raw_pcm16
                               (mkArgs "out/" ["model.tflite"; "missing.wav"])
                               scenario_world).1 !! p))
     ∧ dirs scenario_world
       ⊆ dirs (main no_image raw_pcm16
                 (mkArgs "out/" ["model.tflite"; "missing.wav"])
                 scenario_world).1).
Proof.
  assert (main no_image raw_pcm16 (mkArgs "out/" ["model.tflite"; "missing.wav"])
            scenario_world =
          ((main no_image raw_pcm16 (mkArgs "out/" ["model.tflite"; "missing.wav"])
              scenario_world).1,
           Raise (FileNotFoundError "missing.wav"))) as Hrun
    by (vm_compute; reflexivity).
  split; [exact Hrun|].
  apply (main_only_artifacts_change no_image raw_pcm16
           (mkArgs "out/" ["model.tflite"; "missing.wav"]) scenario_world _ _ Hrun).
Defined.

Lemma main_directory_mode_absolute_inputs_witness :
  Py.endswith "out" ".cc" || Py.endswith "out" ".h" = false
  ∧ Py.endswith "elsewhere/" ".cc" || Py.endswith "elsewhere/" ".h" = false
  ∧ Forall (λ input_file, Py.startswith input_file "/" = true)
      ["/data/m.tflite"; "/data/s.wav"]
  ∧ (main no_image raw_pcm16 (mkArgs "out" ["/data/m.tflite"; "/data/s.wav"])
       scenario_world =
     main no_image raw_pcm16 (mkArgs "elsewhere/" ["/data/m.tflite"; "/data/s.wav"])
       scenario_world
     ∧ Forall (λ input_file,
                 ∀ k, output_base_fname "out" input_file k =
                      Py.first (Py.split input_file ".") +:+ kind_suffix k)
         ["/data/m.tflite"; "/data/s.wav"]).
Proof.
  split; [reflexivity|]. split; [reflexivity|].
  assert (Forall (λ input_file, Py.startswith input_file "/" = true)
            ["/data/m.tflite"; "/data/s.wav"]) as Habs
    by (repeat constructor).
  split; [exact Habs|].
  apply (main_directory_mode_absolute_inputs no_image raw_pcm16 "out" "elsewhere/"
           ["/data/m.tflite"; "/data/s.wav"] scenario_world eq_refl eq_refl Habs).
Defined.

Lemma main_directory_mode_one_input_witness :
  Py.endswith "out/" ".cc" || Py.endswith "out/" ".h" = false
  ∧ main no_image raw_pcm16 (mkArgs "out/" ["sound.wav"]) scenario_world =
      ((main no_image raw_pcm16 (mkArgs "out/" ["sound.wav"]) scenario_world).1,
       Ok tt)
  ∧ ∃ (k : Kind) (size : Z) (cc_array : string),
      Py.endswith "sound.wav" (extension k) = true
      ∧ (generate_array no_image raw_pcm16 "sound.wav" scenario_world).2
        = Ok (size, cc_array)
      ∧ files (main no_image raw_pcm16 (mkArgs "out/" ["sound.wav"])
                 scenario_world).1
          !! (output_base_fname "out/" "sound.wav" k +:+ ".cc") =
          Some (String.list_byte_of_string
                  (definition_text
                     (Py.replace
                        (Py.final
                           (Py.split (output_base_fname "out/" "sound.wav" k +:+ ".cc")
                              "genfiles/")) ".cc" ".h")
                     (element_type k)
                     ("g_" +:+ base_name "sound.wav" +:+ kind_suffix k)
                     cc_array size))
      ∧ files (main no_image raw_pcm16 (mkArgs "out/" ["sound.wav"])
                 scenario_world).1
          !! (output_base_fname "out/" "sound.wav" k +:+ ".h") =
          Some (String.list_byte_of_string
                  (declaration_text (element_type k)
                     ("g_" +:+ base_name "sound.wav" +:+ kind_suffix k)))
      ∧ ∀ p, p ≠ output_base_fname "out/" "sound.wav" k +:+ ".cc" →
             p ≠ output_base_fname "out/" "sound.wav" k +:+ ".h" →
             files (main no_image raw_pcm16 (mkArgs "out/" ["sound.wav"])
                      scenario_world).1 !! p
             = files scenario_world !! p.
Proof.
  split; [reflexivity|].
  assert (main no_image raw_pcm16 (mkArgs "out/" ["sound.wav"]) scenario_world =
          ((main no_image raw_pcm16 (mkArgs "out/" ["sound.wav"]) scenario_world).1,
           Ok tt)) as Hrun by (vm_compute; reflexivity).
  split; [exact Hrun|].
  apply (main_directory_mode_one_input no_image raw_pcm16 "out/" "sound.wav"
           scenario_world _ eq_refl Hrun).
Defined.

Lemma main_single_file_success_witness :
  Py.endswith (output (mkArgs "gen/custom.h" ["sound.wav"])) ".cc"
  || Py.endswith (output (mkArgs "gen/custom.h" ["sound.wav"])) ".h" = true
  ∧ main no_image raw_pcm16 (mkArgs "gen/custom.h" ["sound.wav"]) scenario_world =
      ((main no_image raw_pcm16 (mkArgs "gen/custom.h" ["sound.wav"])
          scenario_world).1, Ok tt)
  ∧ ∃ (input_file : string) (k : Kind) (size : Z) (cc_array : string),
      inputs (mkArgs "gen/custom.h" ["sound.wav"]) = [input_file]
      ∧ Py.endswith input_file (extension k) = true
      ∧ (generate_array no_image raw_pcm16 input_file scenario_world).2
        = Ok (size, cc_array)
      ∧ files (main no_image raw_pcm16 (mkArgs "gen/custom.h" ["sound.wav"])
                 scenario_world).1
          !! output (mkArgs "gen/custom.h" ["sound.wav"]) =
          Some (String.list_byte_of_string
                  (if Py.endswith (output (mkArgs "gen/custom.h" ["sound.wav"])) ".cc"
                   then definition_text
                          (Py.replace
                             (Py.final
                                (Py.split (output (mkArgs "gen/custom.h" ["sound.wav"]))
                                   "genfiles/")) ".cc" ".h")
                          (element_type k)
                          ("g_" +:+ base_name input_file +:+ kind_suffix k)
                          cc_array size
                   else declaration_text (element_type k)
                          ("g_" +:+ base_name input_file +:+ kind_suffix k)))
      ∧ (∀ p, p ≠ output (mkArgs "gen/custom.h" ["sound.wav"]) →
              files (main no_image raw_pcm16 (mkArgs "gen/custom.h" ["sound.wav"])
                       scenario_world).1 !! p
              = files scenario_world !! p)
      ∧ trace (main no_image raw_pcm16 (mkArgs "gen/custom.h" ["sound.wav"])
                 scenario_world).1
        = trace scenario_world
          ++ [EvOpen input_file "rb";
              EvOpen (output (mkArgs "gen/custom.h" ["sound.wav"])) "w"].
Proof.
  split; [reflexivity|].
  assert (main no_image raw_pcm16 (mkArgs "gen/custom.h" ["sound.wav"])
            scenario_world =
          ((main no_image raw_pcm16 (mkArgs "gen/custom.h" ["sound.wav"])
              scenario_world).1, Ok tt)) as Hrun by (vm_compute; reflexivity).
  split; [exact Hrun|].
  apply (main_single_file_success no_image raw_pcm16
           (mkArgs "gen/custom.h" ["sound.wav"]) scenario_world _ eq_refl Hrun).
Defined.

Lemma main_unsupported_first_input_witness :
  inputs (mkArgs "out" ["image.png"; "model.tflite"]) = "image.png" :: ["model.tflite"]
  ∧ kind_of_path "image.png" = None
  ∧ (Py.endswith (output (mkArgs "out" ["image.png"; "model.tflite"])) ".cc"
     || Py.endswith (output (mkArgs "out" ["image.png"; "model.tflite"])) ".h" = true →
     ["model.tflite"] = [])
  ∧ main no_image raw_pcm16 (mkArgs "out" ["image.png"; "model.tflite"])
      scenario_world =
      (scenario_world, Raise (ValueError "input file must be .tflite, .bmp or .wav")).
Proof.
  split; [reflexivity|]. split; [reflexivity|].
  assert (Py.endswith (output (mkArgs "out" ["image.png"; "model.tflite"])) ".cc"
          || Py.endswith (output (mkArgs "out" ["image.png"; "model.tflite"])) ".h"
          = true → ["model.tflite"] = []) as Hsingle by (cbn; discriminate).
  split; [exact Hsingle|].
  apply (main_unsupported_first_input no_image raw_pcm16
           (mkArgs "out" ["image.png"; "model.tflite"]) "image.png" ["model.tflite"]
           scenario_world eq_refl eq_refl Hsingle).
Defined.

Lemma main_single_file_bare_output_witness :
  Py.endswith (output (mkArgs "model.cc" ["model.tflite"])) ".cc"
  || Py.endswith (output (mkArgs "model.cc" ["model.tflite"])) ".h" = true
  ∧ contains_char "/" (output (mkArgs "model.cc" ["model.tflite"])) = false
  ∧ main no_image raw_pcm16 (mkArgs "model.cc" ["model.tflite"]) scenario_world =
      (log (EvOpen "model.tflite" "rb") scenario_world,
       Raise (FileNotFoundError EmptyString))
  ∧ (Raise (FileNotFoundError EmptyString) ≠ Ok tt
     ∧ files (log (EvOpen "model.tflite" "rb") scenario_world) = files scenario_world
     ∧ dirs (log (EvOpen "model.tflite" "rb") scenario_world) = dirs scenario_world).
Proof.
  split; [reflexivity|]. split; [reflexivity|].
  assert (main no_image raw_pcm16 (mkArgs "model.cc" ["model.tflite"]) scenario_world =
          (log (EvOpen "model.tflite" "rb") scenario_world,
           Raise (FileNotFoundError EmptyString))) as Hrun
    by (vm_compute; reflexivity).
  split; [exact Hrun|].
  apply (main_single_file_bare_output no_image raw_pcm16
           (mkArgs "model.cc" ["model.tflite"]) scenario_world _ _ eq_refl eq_refl Hrun).
Defined.

Lemma main_directory_mode_first_occurrences_witness :
  Py.endswith "out/" ".cc" || Py.endswith "out/" ".h" = false
  ∧ (main no_image raw_pcm16
       (mkArgs "out/" ["sound.wav"; "model.tflite"; "sound.wav"; "model.tflite"])
       scenario_world =
     main no_image raw_pcm16
       (mkArgs "out/"
          (Py.dict_keys
             (Py.dict_fromkeys ["sound.wav"; "model.tflite"; "sound.wav"; "model.tflite"])))
       scenario_world
     ∧ Py.dict_keys
         (Py.dict_fromkeys ["sound.wav"; "model.tflite"; "sound.wav"; "model.tflite"])
       = first_occurrences ["sound.wav"; "model.tflite"; "sound.wav"; "model.tflite"]
     ∧ NoDup (Py.dict_keys
                (Py.dict_fromkeys
                   ["sound.wav"; "model.tflite"; "sound.wav"; "model.tflite"]))
     ∧ (∀ x, x ∈ Py.dict_keys
                   (Py.dict_fromkeys
                      ["sound.wav"; "model.tflite"; "sound.wav"; "model.tflite"])
             ↔ x ∈ ["sound.wav"; "model.tflite"; "sound.wav"; "model.tflite"])
     ∧ (NoDup ["sound.wav"; "model.tflite"; "sound.wav"; "model.tflite"] →
        Py.dict_keys
          (Py.dict_fromkeys ["sound.wav"; "model.tflite"; "sound.wav"; "model.tflite"])
        = ["sound.wav"; "model.tflite"; "sound.wav"; "model.tflite"])).
Proof.
  split; [reflexivity|].
  apply (main_directory_mode_first_occurrences no_image raw_pcm16 "out/"
           ["sound.wav"; "model.tflite"; "sound.wav"; "model.tflite"]
           scenario_world eq_refl).
Defined.

Lemma main_missing_first_input_witness :
  inputs (mkArgs "out/" ["missing.wav"; "model.tflite"])
    = "missing.wav" :: ["model.tflite"]
  ∧ kind_of_path "missing.wav" = Some AudioWaveform
  ∧ files scenario_world !! "missing.wav" = None
  ∧ Os.isdir scenario_world "missing.wav" = false
  ∧ (Py.endswith (output (mkArgs "out/" ["missing.wav"; "model.tflite"])) ".cc"
     || Py.endswith (output (mkArgs "out/" ["missing.wav"; "model.tflite"])) ".h"
     = true → ["model.tflite"] = [])
  ∧ main no_image raw_pcm16 (mkArgs "out/" ["missing.wav"; "model.tflite"])
      scenario_world =
      (log (EvOpen "missing.wav" "rb")
         (if Py.endswith (output (mkArgs "out/" ["missing.wav"; "model.tflite"])) ".cc"
             || Py.endswith (output (mkArgs "out/" ["missing.wav"; "model.tflite"])) ".h"
          then scenario_world
          else log (EvPrint
                      (output_base_fname
                         (output (mkArgs "out/" ["missing.wav"; "model.tflite"]))
                         "missing.wav" AudioWaveform +:+ ".cc")) scenario_world),
       Raise (FileNotFoundError "missing.wav")).
Proof.
  split; [reflexivity|]. split; [reflexivity|]. split; [reflexivity|].
  split; [reflexivity|].
  assert (Py.endswith (output (mkArgs "out/" ["missing.wav"; "model.tflite"])) ".cc"
          || Py.endswith (output (mkArgs "out/" ["missing.wav"; "model.tflite"])) ".h"
          = true → ["model.tflite"] = []) as Hsingle by (cbn; discriminate).
  split; [exact Hsingle|].
  apply (main_missing_first_input no_image raw_pcm16
           (mkArgs "out/" ["missing.wav"; "model.tflite"]) "missing.wav"
           ["model.tflite"] AudioWaveform scenario_world
           eq_refl eq_refl eq_refl eq_refl Hsingle).
Defined.

Lemma main_directory_mode_same_stem_witness :
  Py.endswith "out/" ".cc" || Py.endswith "out/" ".h" = false
  ∧ "m.a.tflite" ≠ "m.b.tflite"
  ∧ Py.first (Py.split "m.a.tflite" ".") = Py.first (Py.split "m.b.tflite" ".")
  ∧ Py.endswith "m.a.tflite" (extension BinaryBlob) = true
  ∧ Py.endswith "m.b.tflite" (extension BinaryBlob) = true
  ∧ main no_image raw_pcm16 (mkArgs "out/" ["m.a.tflite"; "m.b.tflite"]) stem_world =
      ((main no_image raw_pcm16 (mkArgs "out/" ["m.a.tflite"; "m.b.tflite"])
          stem_world).1, Ok tt)
  ∧ (output_base_fname "out/" "m.a.tflite" BinaryBlob
     = output_base_fname "out/" "m.b.tflite" BinaryBlob
     ∧ get_array_name "m.a.tflite" = get_array_name "m.b.tflite"
     ∧ ∃ (size : Z) (cc_array : string),
         (generate_array no_image raw_pcm16 "m.b.tflite" stem_world).2
         = Ok (size, cc_array)
         ∧ files (main no_image raw_pcm16
                    (mkArgs "out/" ["m.a.tflite"; "m.b.tflite"]) stem_world).1
             !! (output_base_fname "out/" "m.b.tflite" BinaryBlob +:+ ".cc") =
             Some (String.list_byte_of_string
                     (definition_text
                        (Py.replace
                           (Py.final
                              (Py.split
                                 (output_base_fname "out/" "m.b.tflite" BinaryBlob
                                  +:+ ".cc") "genfiles/")) ".cc" ".h")
                        (element_type BinaryBlob)
                        ("g_" +:+ base_name "m.b.tflite" +:+ kind_suffix BinaryBlob)
                        cc_array size))).
Proof.
  split; [reflexivity|]. split; [discriminate|]. split; [reflexivity|].
  split; [reflexivity|]. split; [reflexivity|].
  assert (main no_image raw_pcm16 (mkArgs "out/" ["m.a.tflite"; "m.b.tflite"])
            stem_world =
          ((main no_image raw_pcm16 (mkArgs "out/" ["m.a.tflite"; "m.b.tflite"])
              stem_world).1, Ok tt)) as Hrun by (vm_compute; reflexivity).
  split; [exact Hrun|].
  apply (main_directory_mode_same_stem no_image raw_pcm16 "out/"
           "m.a.tflite" "m.b.tflite" BinaryBlob stem_world _ eq_refl);
    [discriminate|reflexivity|reflexivity|reflexivity|exact Hrun].
Defined.

Example main_directory_mode_same_stem_scenario :
  files (main no_image raw_pcm16 (mkArgs "out/" ["m.a.tflite"; "m.b.tflite"])
           stem_world).1 !! "out/m_model_data.cc" =
    Some (String.list_byte_of_string
            (definition_text "out/m_model_data.h" "unsigned char"
               "g_m_model_data" "0x02,0x03," 2)).
Proof. vm_compute. reflexivity. Qed.
